(** * go-migrator: model-to-schema diff engine and DDL generation

    A shallow embedding of the Go sources of go-migrator:

    - [main.go]             the stand-alone command (functions of package main),
                            embedded in [Module Main];
    - [sql_helpers.go], [model_comparison.go], [migrator.go]
                            the methods of [*Migrator], embedded in [Module Mig];
    - [register.go]         [RegisterModels], embedded in [Module Register].

    Go strings are byte sequences and are embedded as [string] (a list of
    8-bit [ascii]).  An index expression that can panic at run time
    ([parts[1]], [strings.Fields(diff)[2]]) returns [option]: [None] is the
    run-time panic "index out of range". *)

From Stdlib Require Import String Ascii List Bool Arith ZArith Lia.
From Stdlib Require Import DecimalString.
Import ListNotations.
Local Open Scope list_scope.
Local Open Scope string_scope.

(* ================================================================== *)
(** * The functions of Go's [strings] package that the program calls *)
(* ================================================================== *)

Module Strings.

(** The newline byte, written ["\n"] in the Go sources. *)
Definition nl : string := String "010"%char "".

(** [strings.HasPrefix(s, prefix)]. *)
Fixpoint HasPrefix (s prefix : string) {struct prefix} : bool :=
  match prefix with
  | "" => true
  | String p prefix' =>
      match s with
      | "" => false
      | String c s' => if Ascii.eqb c p then HasPrefix s' prefix' else false
      end
  end.

(** [strings.Contains(s, substr)]: [substr] starts at some position of [s]. *)
Fixpoint Contains (s substr : string) : bool :=
  HasPrefix s substr ||
  match s with
  | "" => false
  | String _ s' => Contains s' substr
  end.

(** [strings.Split(s, sep)] for a separator of one byte, which is the only
    way the program calls it ([":"] and [";"]).  The result is never empty:
    a string without the separator gives the one-element list [[s]]. *)
Fixpoint Split (s : string) (sep : ascii) : list string :=
  match s with
  | "" => [""]
  | String c s' =>
      if Ascii.eqb c sep then "" :: Split s' sep
      else match Split s' sep with
           | [] => [String c ""]
           | p :: ps => String c p :: ps
           end
  end.

(** [strings.Join(elems, sep)]. *)
Fixpoint Join (elems : list string) (sep : string) : string :=
  match elems with
  | [] => ""
  | [e] => e
  | e :: rest => e ++ sep ++ Join rest sep
  end.

(** The white space of [strings.Fields] on ASCII input: tab, line feed,
    vertical tab, form feed, carriage return and space. *)
Definition isSpace (c : ascii) : bool :=
  let n := nat_of_ascii c in
  ((9 <=? n)%nat && (n <=? 13)%nat) || (n =? 32)%nat.

(** [strings.Fields(s)]: the maximal runs of non-space bytes of [s].  Go
    also splits at the Unicode white space beyond ASCII (U+0085, U+00A0,
    ...); the embedding is exact on strings without such runes. *)
Fixpoint Fields (s : string) : list string :=
  match s with
  | "" => []
  | String c s' =>
      if isSpace c then Fields s'
      else match s' with
           | "" => [String c ""]
           | String d _ =>
               if isSpace d then String c "" :: Fields s'
               else match Fields s' with
                    | [] => [String c ""]
                    | w :: ws => String c w :: ws
                    end
           end
  end.

(** ASCII lower-casing of one byte. *)
Definition toLower (c : ascii) : ascii :=
  let n := nat_of_ascii c in
  if (65 <=? n)%nat && (n <=? 90)%nat then ascii_of_nat (n + 32) else c.

(** [strings.EqualFold(s, t)] on ASCII strings: equality up to the case of
    the letters A-Z.  (Go folds Unicode letters as well; the type names the
    program compares are ASCII.) *)
Fixpoint EqualFold (s t : string) : bool :=
  match s, t with
  | "", "" => true
  | String a s', String b t' =>
      if Ascii.eqb (toLower a) (toLower b) then EqualFold s' t' else false
  | _, _ => false
  end.

End Strings.

(** The element of index [i] of a Go slice, [None] when the index is out of
    range (where Go panics). *)
Definition index {A} (l : list A) (i : nat) : option A := nth_error l i.

(* ================================================================== *)
(** * Reflection data: types, fields, models *)
(* ================================================================== *)

(** [reflect.Kind]. *)
Inductive Kind : Type :=
| Invalid | Bool | Int | Int8 | Int16 | Int32 | Int64
| Uint | Uint8 | Uint16 | Uint32 | Uint64 | Uintptr
| Float32 | Float64 | Complex64 | Complex128
| Array | Chan | Func | Interface | Map | Pointer | Slice
| String_ | Struct | UnsafePointer.

(** A [reflect.Type], as far as the program looks at it: its kind, its
    name and the path of the package that declares it.  Two named types are
    identical when these agree. *)
Record GoType : Type := mkType {
  TKind : Kind;
  TName : string;
  TPkgPath : string
}.

Definition Kind_eqb (a b : Kind) : bool :=
  match a, b with
  | Invalid, Invalid | Bool, Bool | Int, Int | Int8, Int8 | Int16, Int16
  | Int32, Int32 | Int64, Int64 | Uint, Uint | Uint8, Uint8 | Uint16, Uint16
  | Uint32, Uint32 | Uint64, Uint64 | Uintptr, Uintptr | Float32, Float32
  | Float64, Float64 | Complex64, Complex64 | Complex128, Complex128
  | Array, Array | Chan, Chan | Func, Func | Interface, Interface | Map, Map
  | Pointer, Pointer | Slice, Slice | String_, String_ | Struct, Struct
  | UnsafePointer, UnsafePointer => true
  | _, _ => false
  end.

(** [t1 == t2] on [reflect.Type] values. *)
Definition GoType_eqb (a b : GoType) : bool :=
  Kind_eqb (TKind a) (TKind b) && String.eqb (TName a) (TName b)
  && String.eqb (TPkgPath a) (TPkgPath b).

(** [reflect.TypeOf(time.Time{})] and [reflect.TypeOf(gorm.Model{})]. *)
Definition timeTime : GoType := mkType Struct "Time" "time".
Definition gormModel : GoType := mkType Struct "Model" "gorm.io/gorm".

(** Types of the predeclared kinds. *)
Definition basic (k : Kind) (name : string) : GoType := mkType k name "".
Definition tString : GoType := basic String_ "string".
Definition tInt : GoType := basic Int "int".
Definition tUint : GoType := basic Uint "uint".
Definition tBool : GoType := basic Bool "bool".
Definition tFloat64 : GoType := basic Float64 "float64".

(** A [reflect.StructField]; [FTag] is [field.Tag.Get("gorm")]. *)
Record Field : Type := mkField {
  FName : string;
  FType : GoType;
  FTag : string
}.

(** [reflect.TypeOf(model).Elem()]: a struct type with its fields in
    declaration order. *)
Record Model : Type := mkModel {
  MName : string;
  MFields : list Field
}.

(** gorm's [NamingStrategy], an external collaborator. *)
Record NamingStrategy : Type := mkNaming {
  TableName : string -> string;
  ColumnName : string -> string -> string
}.

(** [field.Name == "Model" && field.Type == reflect.TypeOf(gorm.Model{})]. *)
Definition isGormModel (f : Field) : bool :=
  String.eqb (FName f) "Model" && GoType_eqb (FType f) gormModel.

(** Go's [append(l, x)], as a value. *)
Definition append {A} (l : list A) (x : A) : list A := (l ++ [x])%list.

(** The error monad of the panicking index expressions. *)
Definition bind {A B} (m : option A) (k : A -> option B) : option B :=
  match m with
  | Some a => k a
  | None => None
  end.

Notation "x <- m ;; k" := (bind m (fun x => k))
  (at level 61, m at next level, right associativity).

(** A [for _, x := range l] loop whose body can panic: the state is threaded
    through the iterations, and a panic ends the loop. *)
Fixpoint forEach {S A} (body : S -> A -> option S) (l : list A) (s : S)
  : option S :=
  match l with
  | [] => Some s
  | x :: l' => s' <- body s x ;; forEach body l' s'
  end.

(** The outcome of one [QueryRow(...).Scan(&v)]: the scanned value, or the
    error [Scan] returned (rendered with [%v]). *)
Inductive QueryResult (A : Type) : Type :=
| Row (v : A)
| QueryError (err : string).
Arguments Row {A} v.
Arguments QueryError {A} err.

(** The three catalogue queries the program sends to [information_schema],
    as point-in-time reads of the live database. *)
Record DB : Type := mkDB {
  tableExists : string -> QueryResult bool;
  columnExists : string -> string -> QueryResult bool;
  columnDataType : string -> string -> QueryResult string
}.

(** What [gorm.Open] returns when it succeeds: the handle, of which the
    program uses the naming strategy, and the outcome of [db.DB()]. *)
Record Connection : Type := mkConnection {
  connNaming : NamingStrategy;
  connDB : QueryResult DB
}.

(** The verb [%d] of [fmt.Sprintf] on an [int]. *)
Definition formatInt (n : Z) : string := NilZero.string_of_int (Z.to_int n).

(** The data source name both entry points format. *)
Definition dataSourceName (host : string) (port : Z)
  (user password dbname : string) : string :=
  "host=" ++ host ++ " port=" ++ formatInt port ++ " user=" ++ user
    ++ " password=" ++ password ++ " dbname=" ++ dbname ++ " sslmode=disable".

(** The five slices [generateCreateTableSQL] accumulates. *)
Record CreateAcc : Type := mkAcc {
  columns : list string;
  primaryKeys : list string;
  foreignKeys : list string;
  indexes : list string;
  comments : list string
}.

Definition emptyAcc : CreateAcc := mkAcc [] [] [] [] [].

(** The four columns appended for an embedded [gorm.Model]. *)
Definition gormModelColumns : list string :=
  [ "id BIGSERIAL PRIMARY KEY";
    "created_at TIMESTAMP NOT NULL DEFAULT CURRENT_TIMESTAMP";
    "updated_at TIMESTAMP NOT NULL DEFAULT CURRENT_TIMESTAMP";
    "deleted_at TIMESTAMP NULL" ].

(** [append(l, x)] when [cond] holds. *)
Definition appendIf (cond : bool) (l : list string) (x : string) : list string :=
  if cond then append l x else l.

Definition nonEmpty (s : string) : bool := negb (String.eqb s "").

(* ================================================================== *)
(** * The effects of the orchestrating loop *)
(* ================================================================== *)

(** What a run does to the outside world, in order. *)
Inductive Event : Type :=
| Log (msg : string)                       (* log.Printf *)
| Stdout (msg : string)                    (* fmt.Printf *)
| MkdirAll (dir : string)                  (* os.MkdirAll succeeded *)
| WriteFile (path content : string).       (* os.WriteFile succeeded *)

(** The operating system as the program sees it: [timeNow n] is
    [time.Now().Format("20060102150405")] at the [n]-th reading of the clock;
    [mkdirAll] and [writeFile] return the error, if any; [pathJoin] is
    [filepath.Join]. *)
Record OS : Type := mkOS {
  timeNow : nat -> string;
  mkdirAll : string -> option string;
  writeFile : string -> string -> option string;
  pathJoin : string -> string -> string
}.

Record World : Type := mkWorld {
  trace : list Event;
  clock : nat
}.

(** How a computation ends: normally, by [log.Fatalf] (which logs and calls
    [os.Exit(1)]), or by a run-time panic. *)
Inductive Outcome (A : Type) : Type :=
| Normal (a : A)
| Exit (code : nat)
| Panic.
Arguments Normal {A} a.
Arguments Exit {A} code.
Arguments Panic {A}.

Definition M (A : Type) : Type := World -> World * Outcome A.

Definition ret {A} (a : A) : M A := fun w => (w, Normal a).

Definition bindM {A B} (m : M A) (k : A -> M B) : M B :=
  fun w =>
    match m w with
    | (w', Normal a) => k a w'
    | (w', Exit c) => (w', Exit c)
    | (w', Panic) => (w', Panic)
    end.

Notation "m >> k" := (bindM m (fun _ => k))
  (at level 62, right associativity).
Notation "x <~ m ; k" := (bindM m (fun x => k))
  (at level 62, m at next level, right associativity).

Definition emit (e : Event) : M unit :=
  fun w => (mkWorld (append (trace w) e) (clock w), Normal tt).

Definition logPrintf (msg : string) : M unit := emit (Log msg).

(** [log.Fatalf]: the message is logged and the process exits with status 1. *)
Definition logFatalf (msg : string) : M unit :=
  fun w => (mkWorld (append (trace w) (Log msg)) (clock w), Exit 1).

Definition now (os : OS) : M string :=
  fun w => (mkWorld (trace w) (S (clock w)), Normal (timeNow os (clock w))).

(** [os.Exit(code)]. *)
Definition osExit (code : nat) : M unit := fun w => (w, Exit code).

(** A call that may panic. *)
Definition orPanic {A} (r : option A) : M A :=
  fun w => match r with
           | Some a => (w, Normal a)
           | None => (w, Panic)
           end.

Definition when (c : bool) (m : M unit) : M unit := if c then m else ret tt.

Fixpoint logAll (msgs : list string) : M unit :=
  match msgs with
  | [] => ret tt
  | m :: rest => logPrintf m >> logAll rest
  end.

(** A [for _, x := range l] loop in [M]; [continue] is the normal end of the
    body. *)
Fixpoint forM {A} (body : A -> M unit) (l : list A) : M unit :=
  match l with
  | [] => ret tt
  | x :: l' => body x >> forM body l'
  end.

(** The files a trace wrote. *)
Definition isWrite (e : Event) : bool :=
  match e with
  | WriteFile _ _ => true
  | _ => false
  end.

Definition filesWritten (t : list Event) : list Event := filter isWrite t.

(* ================================================================== *)
(** * The code [main.go] and the [Migrator] methods have in common *)
(* ================================================================== *)

(** [compareModelToTable], [generateAlterTableSQL],
    [generateRollbackAlterTableSQL], [createMigrationFile] and the loop of
    [generateMigrations] / [GenerateMigrations] have the same text in
    [main.go] and in the [Migrator] methods; they differ in the
    [getPostgresType] and [generateCreateTableSQL] they call and in where the
    output directory and the debug flag are stored. *)
Module Engine.
Section Engine.

Variable getPostgresType : GoType -> string.
Variable generateCreateTableSQL : NamingStrategy -> Model -> option string.
Variable ns : NamingStrategy.
Variable db : DB.
Variable os : OS.
Variable outputDir : string.
Variable debug : bool.

(** The body of the loop of [compareModelToTable]; the state is the slice
    [differences] and the lines logged so far. *)
Definition compareField (tableName : string)
  (acc : list string * list string) (field : Field)
  : list string * list string :=
  let (differences, logged) := acc in
  let columnName := ColumnName ns "" (FName field) in
  if isGormModel field then acc
  else
    match columnExists db tableName columnName with
    | QueryError err =>
        (differences, append logged ("Error checking if column exists: " ++ err))
    | Row exists_ =>
        if negb exists_ then
          (append differences
             ("ADD COLUMN " ++ columnName ++ " "
                ++ getPostgresType (FType field)),
           logged)
        else
          match columnDataType db tableName columnName with
          | QueryError err =>
              (differences, append logged ("Error getting column type: " ++ err))
          | Row columnType =>
              if negb (Strings.EqualFold columnType
                         (getPostgresType (FType field)))
              then
                (append differences
                   ("ALTER COLUMN " ++ columnName ++ " TYPE "
                      ++ getPostgresType (FType field)),
                 logged)
              else acc
          end
    end.

(** [compareModelToTable]: the differences, and the lines it logged. *)
Definition compareModelToTable (model : Model) : list string * list string :=
  let tableName := TableName ns (MName model) in
  fold_left (compareField tableName) (MFields model) ([], []).

Definition generateAlterTableSQL (tableName : string)
  (differences : list string) : string :=
  match differences with
  | [] => ""
  | _ => "ALTER TABLE " ++ tableName ++ Strings.nl
           ++ Strings.Join differences ("," ++ Strings.nl) ++ ";"
  end.

(** The body of the loop of [generateRollbackAlterTableSQL]. *)
Definition rollbackStep (rollbackStatements : list string) (diff : string)
  : option (list string) :=
  if Strings.HasPrefix diff "ADD COLUMN" then
    columnName <- index (Strings.Fields diff) 2 ;;
    Some (append rollbackStatements ("DROP COLUMN " ++ columnName))
  else Some rollbackStatements.

Definition generateRollbackAlterTableSQL (tableName : string)
  (differences : list string) : option string :=
  rollbackStatements <- forEach rollbackStep differences [] ;;
  match rollbackStatements with
  | [] => Some ""
  | _ => Some ("ALTER TABLE " ++ tableName ++ Strings.nl
                 ++ Strings.Join rollbackStatements ("," ++ Strings.nl) ++ ";")
  end.

Definition createMigrationFile (name content : string) (isUp : bool) : M unit :=
  if String.eqb content "" then
    logPrintf ("Skipping creation of empty migration file: " ++ name)
  else
    timestamp <~ now os ;
    let direction := if negb isUp then "down" else "up" in
    let filename := timestamp ++ "_" ++ name ++ "." ++ direction ++ ".sql" in
    match mkdirAll os outputDir with
    | Some err => logFatalf ("Failed to create migrations directory: " ++ err)
    | None =>
        emit (MkdirAll outputDir) >>
        let filepath := pathJoin os outputDir filename in
        match writeFile os filepath content with
        | Some err => logFatalf ("Failed to write migration file: " ++ err)
        | None =>
            emit (WriteFile filepath content) >>
            emit (Stdout ("Created migration file: " ++ filepath ++ Strings.nl)) >>
            when debug
              (emit (Stdout ("Content:" ++ Strings.nl ++ content ++ Strings.nl)))
        end
    end.

(** The body of the loop over the models. *)
Definition migrateModel (model : Model) : M unit :=
  let tableName := TableName ns (MName model) in
  when debug (logPrintf ("Processing model: " ++ MName model)) >>
  match tableExists db tableName with
  | QueryError err => logPrintf ("Error checking if table exists: " ++ err)
  | Row exists_ =>
      if negb exists_ then
        upSQL <~ orPanic (generateCreateTableSQL ns model) ;
        let downSQL := "DROP TABLE IF EXISTS " ++ tableName ++ ";" in
        if String.eqb upSQL "" then
          logPrintf ("Failed to generate CREATE TABLE SQL for " ++ tableName)
        else
          createMigrationFile ("create_" ++ tableName ++ "_table") upSQL true >>
          createMigrationFile ("drop_" ++ tableName ++ "_table") downSQL false
      else
        let (differences, logged) := compareModelToTable model in
        logAll logged >>
        if (0 <? length differences)%nat then
          let upSQL := generateAlterTableSQL tableName differences in
          downSQL <~ orPanic (generateRollbackAlterTableSQL tableName differences) ;
          if String.eqb upSQL "" || String.eqb downSQL "" then
            logPrintf ("Failed to generate ALTER TABLE SQL for " ++ tableName)
          else
            createMigrationFile ("alter_" ++ tableName ++ "_table") upSQL true >>
            createMigrationFile ("rollback_" ++ tableName ++ "_table") downSQL false
        else
          when debug (logPrintf ("No differences found for table " ++ tableName))
  end.

Definition generateMigrations (models : list Model) : M unit :=
  forM migrateModel models.

End Engine.
End Engine.

(* ================================================================== *)
(** * [main.go]: the functions of the stand-alone command *)
(* ================================================================== *)

Module Main.

Definition getPostgresType (t : GoType) : string :=
  match TKind t with
  | String_ => "VARCHAR"
  | Int | Int8 | Int16 | Int32 | Int64 => "BIGINT"
  | Float32 | Float64 => "DOUBLE PRECISION"
  | Bool => "BOOLEAN"
  | Struct => if String.eqb (TName t) "Time" then "TIMESTAMP" else "TEXT"
  | _ => "TEXT"
  end.

(** [parts := strings.Split(gormTag, ":"); return parts[1]]. *)
Definition getDefault (gormTag : string) : option string :=
  let parts := Strings.Split gormTag ":" in
  index parts 1.

Definition buildColumnDefinition (columnName : string) (fieldType : GoType)
  (gormTag : string) : option string :=
  let postgresType := getPostgresType fieldType in
  let columnDef := columnName ++ " " ++ postgresType in
  let columnDef :=
    if Strings.Contains gormTag "not null" then columnDef ++ " NOT NULL"
    else columnDef in
  let columnDef :=
    if Strings.Contains gormTag "unique" then columnDef ++ " UNIQUE"
    else columnDef in
  if Strings.Contains gormTag "default" then
    d <- getDefault gormTag ;;
    Some (columnDef ++ " DEFAULT " ++ d)
  else Some columnDef.

Definition getForeignKey (gormTag columnName : string) : option string :=
  if Strings.Contains gormTag "foreignKey" then
    let parts := Strings.Split gormTag ":" in
    p <- index parts 1 ;;
    Some ("FOREIGN KEY (" ++ columnName ++ ") REFERENCES " ++ p)
  else Some "".

Definition getComment (gormTag : string) : option string :=
  if Strings.Contains gormTag "comment" then
    let parts := Strings.Split gormTag ":" in
    index parts 1
  else Some "".

(** The body of the loop of [generateCreateTableSQL]. *)
Definition createField (ns : NamingStrategy) (modelType : Model)
  (acc : CreateAcc) (field : Field) : option CreateAcc :=
  let columnName := ColumnName ns "" (FName field) in
  if isGormModel field then
    Some (mkAcc (columns acc ++ gormModelColumns)%list (primaryKeys acc)
            (foreignKeys acc) (indexes acc) (comments acc))
  else
    let gormTag := FTag field in
    columnDefinition <- buildColumnDefinition columnName (FType field) gormTag ;;
    let primaryKeys' :=
      appendIf (Strings.Contains gormTag "primaryKey")
        (primaryKeys acc) columnName in
    foreignKey <- getForeignKey gormTag columnName ;;
    let foreignKeys' := appendIf (nonEmpty foreignKey) (foreignKeys acc) foreignKey in
    let indexes' :=
      appendIf (Strings.Contains gormTag "index") (indexes acc)
        ("CREATE INDEX idx_" ++ columnName ++ " ON "
           ++ TableName ns (MName modelType) ++ " (" ++ columnName ++ ");") in
    comment <- getComment gormTag ;;
    let comments' :=
      appendIf (nonEmpty comment) (comments acc)
        ("COMMENT ON COLUMN " ++ TableName ns (MName modelType) ++ "."
           ++ columnName ++ " IS '" ++ comment ++ "';") in
    Some (mkAcc (append (columns acc) columnDefinition) primaryKeys'
            foreignKeys' indexes' comments').

Definition generateCreateTableSQL (ns : NamingStrategy) (modelType : Model)
  : option string :=
  acc <- forEach (createField ns modelType) (MFields modelType) emptyAcc ;;
  let columns' :=
    appendIf (0 <? length (primaryKeys acc))%nat (columns acc)
      ("PRIMARY KEY (" ++ Strings.Join (primaryKeys acc) ", " ++ ")") in
  match columns' with
  | [] => Some ""
  | _ => Some ("CREATE TABLE " ++ TableName ns (MName modelType) ++ " ("
                 ++ Strings.nl ++ Strings.Join columns' ("," ++ Strings.nl)
                 ++ Strings.nl ++ ");")
  end.

Definition compareModelToTable := Engine.compareModelToTable getPostgresType.
Definition generateAlterTableSQL := Engine.generateAlterTableSQL.
Definition generateRollbackAlterTableSQL := Engine.generateRollbackAlterTableSQL.

(** The model declared in [main.go]. *)
Definition User : Model :=
  mkModel "User"
    [ mkField "Model" gormModel "";
      mkField "Name" tString "";
      mkField "Email" tString "" ].

(** The flags [outputDir] and [debug] are package variables. *)
Definition createMigrationFile (os : OS) (outputDir : string) (debug : bool) :=
  Engine.createMigrationFile os outputDir debug.

Definition migrateModel (ns : NamingStrategy) (db : DB) (os : OS)
  (outputDir : string) (debug : bool) : Model -> M unit :=
  Engine.migrateModel getPostgresType generateCreateTableSQL ns db os
    outputDir debug.

(** [generateMigrations]: its list of models is [[&User{}]]. *)
Definition generateMigrations (ns : NamingStrategy) (db : DB) (os : OS)
  (outputDir : string) (debug : bool) : M unit :=
  forM (migrateModel ns db os outputDir debug) [User].

(** The command-line flags, as [flag.Parse] leaves them. *)
Record Flags : Type := mkFlags {
  dbHost : string;
  dbPort : Z;
  dbUser : string;
  dbPassword : string;
  dbName : string;
  outputDir : string;
  debug : bool;
  versionFlag : bool
}.

(** [main], after [flag.Parse()]; [gormOpen] is
    [gorm.Open(postgres.Open(dsn), &gorm.Config{})]. *)
Definition main (flags : Flags) (gormOpen : string -> QueryResult Connection)
  (os : OS) : M unit :=
  if versionFlag flags then
    emit (Stdout ("go-migrator version 0.0.2" ++ Strings.nl)) >> osExit 0
  else if String.eqb (dbUser flags) "" || String.eqb (dbName flags) "" then
    logFatalf "Database user and name are required"
  else
    let dsn := dataSourceName (dbHost flags) (dbPort flags) (dbUser flags)
                 (dbPassword flags) (dbName flags) in
    match gormOpen dsn with
    | QueryError err => logFatalf ("Failed to connect to database: " ++ err)
    | Row db =>
        match connDB db with
        | QueryError err => logFatalf ("Failed to get database: " ++ err)
        | Row sqlDB =>
            generateMigrations (connNaming db) sqlDB os (outputDir flags)
              (debug flags)
        end
    end.

End Main.

(* ================================================================== *)
(** * The methods of [*Migrator] *)
(* ================================================================== *)

Module Mig.

Record Config : Type := mkConfig {
  DBHost : string;
  DBPort : Z;
  DBUser : string;
  DBPassword : string;
  DBName : string;
  OutputDir : string;
  Debug : bool
}.

(** The [Migrator] struct; of [m.db] the methods use the naming strategy. *)
Record Migrator : Type := mkMigrator {
  config : Config;
  naming : NamingStrategy;
  sqlDB : DB;
  models : list Model
}.

Definition AddModel (m : Migrator) (model : Model) : Migrator :=
  mkMigrator (config m) (naming m) (sqlDB m) (append (models m) model).

Definition getPostgresType (goType : GoType) : string :=
  match TKind goType with
  | Int | Int8 | Int16 | Int32 | Int64 => "BIGINT"
  | Uint | Uint8 | Uint16 | Uint32 | Uint64 => "BIGINT"
  | String_ => "TEXT"
  | Bool => "BOOLEAN"
  | Float32 | Float64 => "FLOAT"
  | Struct => if GoType_eqb goType timeTime then "TIMESTAMP" else "TEXT"
  | _ => "TEXT"
  end.

Definition getDefault (gormTag : string) : option string :=
  if Strings.Contains gormTag "default:" then
    index (Strings.Split gormTag ":") 1
  else Some "".

Definition buildColumnDefinition (columnName : string) (goType : GoType)
  (gormTag : string) : option string :=
  let columnType := getPostgresType goType in
  let columnDef := columnName ++ " " ++ columnType in
  let columnDef :=
    if Strings.Contains gormTag "not null" then columnDef ++ " NOT NULL"
    else columnDef in
  defaultValue <- getDefault gormTag ;;
  if nonEmpty defaultValue then Some (columnDef ++ " DEFAULT " ++ defaultValue)
  else Some columnDef.

(** The loop of [getForeignKey] over the [;]-separated parts of the tag; when
    no part starts with [foreignKey:] the function returns [""]. *)
Fixpoint foreignKeyOfParts (columnName : string) (parts : list string)
  : option string :=
  match parts with
  | [] => Some ""
  | part :: rest =>
      if Strings.HasPrefix part "foreignKey:" then
        references <- index (Strings.Split part ":") 1 ;;
        Some ("FOREIGN KEY (" ++ columnName ++ ") REFERENCES "
                ++ references ++ "(id)")
      else foreignKeyOfParts columnName rest
  end.

Definition getForeignKey (gormTag columnName : string) : option string :=
  if Strings.Contains gormTag "foreignKey" then
    let parts := Strings.Split gormTag ";" in
    foreignKeyOfParts columnName parts
  else Some "".

Definition getComment (gormTag : string) : option string :=
  if Strings.Contains gormTag "comment:" then
    index (Strings.Split gormTag ":") 1
  else Some "".

(** The body of the loop of [generateCreateTableSQL]. *)
Definition createField (ns : NamingStrategy) (modelType : Model)
  (acc : CreateAcc) (field : Field) : option CreateAcc :=
  let columnName := ColumnName ns "" (FName field) in
  if isGormModel field then
    Some (mkAcc (columns acc ++ gormModelColumns)%list (primaryKeys acc)
            (foreignKeys acc) (indexes acc) (comments acc))
  else
    let gormTag := FTag field in
    columnDefinition <- buildColumnDefinition columnName (FType field) gormTag ;;
    let primaryKeys' :=
      appendIf (Strings.Contains gormTag "primaryKey")
        (primaryKeys acc) columnName in
    foreignKey <- getForeignKey gormTag columnName ;;
    let foreignKeys' := appendIf (nonEmpty foreignKey) (foreignKeys acc) foreignKey in
    let indexes' :=
      appendIf (Strings.Contains gormTag "index") (indexes acc)
        ("CREATE INDEX idx_" ++ columnName ++ " ON "
           ++ TableName ns (MName modelType) ++ " (" ++ columnName ++ ");") in
    comment <- getComment gormTag ;;
    let comments' :=
      appendIf (nonEmpty comment) (comments acc)
        ("COMMENT ON COLUMN " ++ TableName ns (MName modelType) ++ "."
           ++ columnName ++ " IS '" ++ comment ++ "';") in
    Some (mkAcc (append (columns acc) columnDefinition) primaryKeys'
            foreignKeys' indexes' comments').

(** The text [generateCreateTableSQL] builds from the accumulated slices;
    the slice [indexes] is not read. *)
Definition renderCreate (tableName : string) (acc : CreateAcc) : string :=
  let sql := "CREATE TABLE " ++ tableName ++ " (" ++ Strings.nl
               ++ Strings.Join (columns acc) ("," ++ Strings.nl) in
  let sql :=
    if (0 <? length (primaryKeys acc))%nat then
      sql ++ "," ++ Strings.nl ++ "PRIMARY KEY ("
          ++ Strings.Join (primaryKeys acc) ", " ++ ")"
    else sql in
  let sql := sql ++ Strings.nl ++ ");" in
  let sql :=
    if (0 <? length (foreignKeys acc))%nat then
      sql ++ Strings.nl ++ Strings.Join (foreignKeys acc) Strings.nl ++ Strings.nl
    else sql in
  let sql :=
    if (0 <? length (comments acc))%nat then
      sql ++ Strings.nl ++ Strings.Join (comments acc) Strings.nl ++ Strings.nl
    else sql in
  sql.

Definition generateCreateTableSQL (ns : NamingStrategy) (modelType : Model)
  : option string :=
  acc <- forEach (createField ns modelType) (MFields modelType) emptyAcc ;;
  Some (renderCreate (TableName ns (MName modelType)) acc).

Definition compareModelToTable (m : Migrator) : Model -> list string * list string :=
  Engine.compareModelToTable getPostgresType (naming m) (sqlDB m).
Definition generateAlterTableSQL := Engine.generateAlterTableSQL.
Definition generateRollbackAlterTableSQL := Engine.generateRollbackAlterTableSQL.

Definition createMigrationFile (m : Migrator) (os : OS) :=
  Engine.createMigrationFile os (OutputDir (config m)) (Debug (config m)).

Definition migrateModel (m : Migrator) (os : OS) : Model -> M unit :=
  Engine.migrateModel getPostgresType generateCreateTableSQL (naming m)
    (sqlDB m) os (OutputDir (config m)) (Debug (config m)).

(** [GenerateMigrations]; it returns [nil] when the loop ends. *)
Definition GenerateMigrations (m : Migrator) (os : OS) : M unit :=
  forM (migrateModel m os) (models m).

(** [New(config)]: the migrator, or the error. *)
Definition New (config : Config) (gormOpen : string -> QueryResult Connection)
  : QueryResult Migrator :=
  let dsn := dataSourceName (DBHost config) (DBPort config) (DBUser config)
               (DBPassword config) (DBName config) in
  match gormOpen dsn with
  | QueryError err => QueryError ("failed to connect to database: " ++ err)
  | Row db =>
      match connDB db with
      | QueryError err => QueryError ("failed to get database: " ++ err)
      | Row sqlDB => Row (mkMigrator config (connNaming db) sqlDB [])
      end
  end.

End Mig.

(* ================================================================== *)
(** * [register.go]: [RegisterModels] *)
(* ================================================================== *)

Module Register.

(** An [interface{}] value: [nil] or a pointer to a model. *)
Inductive Value : Type :=
| Nil
| ModelPtr (m : Model).

(** The heap of backing arrays; an array is addressed by its position. *)
Definition Heap : Type := list (list Value).

(** A slice header.  The [nil] slice has length and capacity 0. *)
Record Slice : Type := mkSlice {
  array : nat;
  offset : nat;
  len : nat;
  cap : nat
}.

Definition backing (h : Heap) (s : Slice) : list Value := nth (array s) h [].

(** The header points into an allocated array. *)
Definition valid (h : Heap) (s : Slice) : bool :=
  (len s <=? cap s)%nat && (offset s + cap s <=? length (backing h s))%nat
  && ((array s <? length h)%nat || (cap s =? 0)%nat).

(** The elements [s[0], ..., s[len(s)-1]]. *)
Definition elems (h : Heap) (s : Slice) : list Value :=
  firstn (len s) (skipn (offset s) (backing h s)).


(** [a] with [vs] stored from position [i] on. *)
Definition store (a : list Value) (i : nat) (vs : list Value) : list Value :=
  (firstn i a ++ vs ++ skipn (i + length vs) a)%list.

Fixpoint setArray (h : Heap) (i : nat) (a : list Value) : Heap :=
  match h, i with
  | [], _ => []
  | _ :: h', O => a :: h'
  | b :: h', S i' => b :: setArray h' i' a
  end.

(** The built-in [append(s, vs...)]: when the capacity suffices the elements
    are stored in the backing array of [s], behind its length; otherwise a
    new array is allocated, whose capacity [grow] chooses (at least what is
    needed), and [s] is copied into it. *)
Definition goAppend (grow : nat -> nat -> nat) (h : Heap) (s : Slice)
  (vs : list Value) : Heap * Slice :=
  let need := len s + length vs in
  if (need <=? cap s)%nat then
    (setArray h (array s) (store (backing h s) (offset s + len s) vs),
     mkSlice (array s) (offset s) need (cap s))
  else
    let newcap := Nat.max need (grow (cap s) need) in
    ((h ++ [elems h s ++ vs ++ repeat Nil (newcap - need)])%list,
     mkSlice (length h) 0 need newcap).

(** The variables of the package: [register.go] declares the mutex and
    nothing else. *)
Record Package : Type := mkPackage {
  modelLock : bool              (* the mutex is held *)
}.

(** The statement [models = append(models, models...)] on the parameter
    [models]: the heap afterwards, and the new value of the local variable. *)
Definition selfAppend (grow : nat -> nat -> nat) (h : Heap) (models : Slice)
  : Heap * Slice :=
  goAppend grow h models (elems h models).

(** [modelLock.Lock()]: [None] when the mutex is held, where the call does
    not return. *)
Definition Lock (pkg : Package) : option Package :=
  if modelLock pkg then None else Some (mkPackage true).

(** [modelLock.Unlock()], deferred to the return. *)
Definition Unlock (pkg : Package) : Package := mkPackage false.

(** [RegisterModels(models...)].  The function has no result and assigns to
    no variable but its parameter, whose new value is dropped at return. *)
Definition RegisterModels (grow : nat -> nat -> nat) (pkg : Package)
  (h : Heap) (models : Slice) : option (Package * Heap) :=
  locked <- Lock pkg ;;
  let (h', _) := selfAppend grow h models in
  Some (Unlock locked, h').

(** The call [RegisterModels(v1, ..., vn)]: the arguments are passed in a
    new slice of length and capacity [n] ([nil] when there are none). *)
Definition callWith (grow : nat -> nat -> nat) (pkg : Package) (h : Heap)
  (args : list Value) : option (Package * Heap) :=
  match args with
  | [] => RegisterModels grow pkg h (mkSlice (length h) 0 0 0)
  | _ => RegisterModels grow pkg (h ++ [args])%list
           (mkSlice (length h) 0 (length args) (length args))
  end.

End Register.

(* ================================================================== *)
(** * Vocabulary of the properties *)
(* ================================================================== *)

(** The byte [c] does not occur in [s]. *)
Fixpoint noByte (c : ascii) (s : string) : bool :=
  match s with
  | "" => true
  | String d s' => negb (Ascii.eqb d c) && noByte c s'
  end.

(** A visible ASCII byte: neither white space nor a control or non-ASCII
    byte. *)
Definition isNameByte (c : ascii) : bool :=
  let n := nat_of_ascii c in (33 <=? n)%nat && (n <=? 126)%nat.

Fixpoint allNameBytes (s : string) : bool :=
  match s with
  | "" => true
  | String c s' => isNameByte c && allNameBytes s'
  end.

(** A column name as the naming strategy produces them: not empty, and
    made of visible ASCII bytes. *)
Definition validName (s : string) : bool := nonEmpty s && allNameBytes s.

(** A Schema Difference, and the text [compareModelToTable] formats for it
    (its two [fmt.Sprintf] calls). *)
Inductive Difference : Type :=
| AddColumn (name sqlType : string)
| AlterColumnType (name newType : string).

Definition diffName (d : Difference) : string :=
  match d with
  | AddColumn n _ => n
  | AlterColumnType n _ => n
  end.

Definition render (d : Difference) : string :=
  match d with
  | AddColumn n t => "ADD COLUMN " ++ n ++ " " ++ t
  | AlterColumnType n t => "ALTER COLUMN " ++ n ++ " TYPE " ++ t
  end.

Definition isAlterColumnType (d : Difference) : bool :=
  match d with
  | AlterColumnType _ _ => true
  | AddColumn _ _ => false
  end.

Definition isAddColumn (d : Difference) : bool := negb (isAlterColumnType d).

(** The rollback clauses of a batch: one [DROP COLUMN <name>] per
    [AddColumn], in order, and nothing for an [AlterColumnType]. *)
Definition dropClauses (ds : list Difference) : list string :=
  map (fun d => "DROP COLUMN " ++ diffName d) (filter isAddColumn ds).

(** The name of the difference is a valid column name. *)
Definition wellNamed (d : Difference) : bool := validName (diffName d).

(** The column a rendered difference names, read the way
    [generateRollbackAlterTableSQL] reads it: the third field. *)
Definition differenceColumn (d : string) : option string :=
  index (Strings.Fields d) 2.

(** The columns a model is compared on: its fields in declaration order,
    the embedded [gorm.Model] left out. *)
Definition modelColumns (ns : NamingStrategy) (model : Model) : list string :=
  map (fun f => ColumnName ns "" (FName f))
    (filter (fun f => negb (isGormModel f)) (MFields model)).

(** The difference [d] renders an [AddColumn] or an [AlterColumnType] of the
    column of the field [f], which is not the embedded [gorm.Model]. *)
Definition fromField (getPostgresType : GoType -> string) (ns : NamingStrategy)
  (f : Field) (d : string) : Prop :=
  isGormModel f = false /\
  (d = render (AddColumn (ColumnName ns "" (FName f)) (getPostgresType (FType f)))
   \/ d = render (AlterColumnType (ColumnName ns "" (FName f))
                    (getPostgresType (FType f)))).

(** The kinds of the recognised semantic types. *)
Definition isSignedInt (k : Kind) : bool :=
  match k with
  | Int | Int8 | Int16 | Int32 | Int64 => true
  | _ => false
  end.

Definition isUnsignedInt (k : Kind) : bool :=
  match k with
  | Uint | Uint8 | Uint16 | Uint32 | Uint64 => true
  | _ => false
  end.

Definition isFloat (k : Kind) : bool :=
  match k with
  | Float32 | Float64 => true
  | _ => false
  end.

(* ================================================================== *)
(** * The data of the scenarios *)
(* ================================================================== *)

(** gorm's default naming strategy on the names the scenarios use: the
    table of a model is its pluralised snake-case name, the column of a field
    its snake-case name. *)
Definition exampleNaming : NamingStrategy :=
  mkNaming
    (fun name => if String.eqb name "User" then "users" else name)
    (fun _ name =>
       if String.eqb name "Name" then "name"
       else if String.eqb name "Email" then "email"
       else if String.eqb name "OrderID" then "order_id"
       else name).

(** A model without fields. *)
Definition emptyModel : Model := mkModel "User" [].

(** A model with one field, tagged [gormTag]. *)
Definition oneField (name : string) (t : GoType) (gormTag : string) : Model :=
  mkModel "User" [mkField name t gormTag].

(** A live database whose catalogue is given as a list of tables, each with
    its columns and their reported data types; no query fails, except that
    the data type of a missing column has no row to scan. *)
Fixpoint lookup {A} (key : string) (l : list (string * A)) : option A :=
  match l with
  | [] => None
  | (k, v) :: l' => if String.eqb k key then Some v else lookup key l'
  end.

Definition catalogue (tables : list (string * list (string * string))) : DB :=
  mkDB
    (fun t => match lookup t tables with
              | Some _ => Row true
              | None => Row false
              end)
    (fun t c => match lookup t tables with
                | Some cols => match lookup c cols with
                               | Some _ => Row true
                               | None => Row false
                               end
                | None => Row false
                end)
    (fun t c => match lookup t tables with
                | Some cols => match lookup c cols with
                               | Some ty => Row ty
                               | None => QueryError "sql: no rows in result set"
                               end
                | None => QueryError "sql: no rows in result set"
                end).

(** The four columns of [gorm.Model] as PostgreSQL reports them. *)
Definition baseColumns : list (string * string) :=
  [ ("id", "bigint");
    ("created_at", "timestamp without time zone");
    ("updated_at", "timestamp without time zone");
    ("deleted_at", "timestamp without time zone") ].

(** Scenario 2: the table [users] lacks the column [email]. *)
Definition dbMissingEmail : DB :=
  catalogue [("users", (baseColumns ++ [("name", "text")])%list)].

(** Scenario 3: [email] is reported as [character varying]. *)
Definition dbVaryingEmail : DB :=
  catalogue [("users", (baseColumns ++ [("name", "text");
                                        ("email", "character varying")])%list)].

(** An operating system on which every directory and file can be written. *)
Definition exampleOS : OS :=
  mkOS (fun _ => "20240102030405") (fun _ => None) (fun _ _ => None)
    (fun dir file => dir ++ "/" ++ file).

Definition exampleConfig : Mig.Config :=
  Mig.mkConfig "localhost" 5432%Z "postgres" "" "app" "migrations" false.

Definition emptyWorld : World := mkWorld [] 0.

(** Scenario 3 as a [Migrator]: the registered model is [User]. *)
Definition varyingEmailMigrator : Mig.Migrator :=
  Mig.mkMigrator exampleConfig exampleNaming dbVaryingEmail [Main.User].

(** A capacity rule for [append]: twice the old capacity. *)
Definition doubling (oldCap needed : nat) : nat := 2 * oldCap.

Definition userPtr : Register.Value := Register.ModelPtr Main.User.

(* ================================================================== *)
(** * Vocabulary of the further properties *)
(* ================================================================== *)

(** No [;]-separated part of the tag starts with [foreignKey:]. *)
Definition noForeignKeyPart (gormTag : string) : bool :=
  forallb (fun part => negb (Strings.HasPrefix part "foreignKey:"))
    (Strings.Split gormTag ";").

(** A tag on which the parsers of [main.go] do not index past the end: it
    has a colon, or none of the three keywords whose value they read. *)
Definition tagIsSafe (gormTag : string) : bool :=
  negb (noByte ":" gormTag)
  || negb (Strings.Contains gormTag "default"
           || Strings.Contains gormTag "foreignKey"
           || Strings.Contains gormTag "comment").

(** The fields [generateCreateTableSQL] parses the tag of. *)
Definition taggedFields (model : Model) : list Field :=
  filter (fun f => negb (isGormModel f)) (MFields model).

(** The live column of the field exists and its reported type is the mapped
    type, up to the case of the letters. *)
Definition fieldMatches (getPostgresType : GoType -> string)
  (ns : NamingStrategy) (db : DB) (tableName : string) (f : Field) : bool :=
  match columnExists db tableName (ColumnName ns "" (FName f)) with
  | Row true =>
      match columnDataType db tableName (ColumnName ns "" (FName f)) with
      | Row columnType =>
          Strings.EqualFold columnType (getPostgresType (FType f))
      | QueryError _ => false
      end
  | _ => false
  end.

(** Every directory can be made and every file written. *)
Definition osWorks (os : OS) : Prop :=
  (forall dir, mkdirAll os dir = None) /\
  (forall path content, writeFile os path content = None).

(** A file event is the write of a non-empty text to a [.sql] file of the
    output directory. *)
Definition isMigrationWrite (os : OS) (outputDir : string) (e : Event) : Prop :=
  match e with
  | WriteFile path content =>
      content <> "" /\
      exists stem direction,
        path = pathJoin os outputDir (stem ++ "." ++ direction ++ ".sql") /\
        (direction = "up" \/ direction = "down")
  | _ => True
  end.

(** The computation only adds events to the trace, and each one it adds
    satisfies [P], however it ends. *)
Definition emits {A} (P : Event -> Prop) (m : M A) : Prop :=
  forall w, exists es,
    trace (fst (m w)) = (trace w ++ es)%list /\ Forall P es.

(** The path of the file [createMigrationFile] writes when it reads the
    clock at [c]. *)
Definition migrationPath (os : OS) (outputDir : string) (c : nat)
  (name : string) (isUp : bool) : string :=
  pathJoin os outputDir
    (timeNow os c ++ "_" ++ name ++ "."
       ++ (if negb isUp then "down" else "up") ++ ".sql").

(* ================================================================== *)
(** * Facts about the string functions *)
(* ================================================================== *)

Lemma HasPrefix_app (p s : string) : Strings.HasPrefix (p ++ s) p = true.
Proof.
  induction p as [|c p IH]; simpl; [reflexivity|].
  now rewrite Ascii.eqb_refl.
Qed.

Lemma HasPrefix_inv (s p : string) :
  Strings.HasPrefix s p = true -> exists r, s = p ++ r.
Proof.
  revert s; induction p as [|c p IH]; intros s H; simpl in *.
  - now exists s.
  - destruct s as [|d s]; [discriminate|].
    destruct (Ascii.eqb d c) eqn:E; [|discriminate].
    apply Ascii.eqb_eq in E; subst d.
    destruct (IH _ H) as [r ->]. now exists r.
Qed.

Lemma Contains_inv (s sub : string) :
  Strings.Contains s sub = true -> exists a b, s = a ++ sub ++ b.
Proof.
  induction s as [|c s IH]; simpl; intros H.
  - rewrite orb_false_r in H. apply HasPrefix_inv in H as [r ->].
    now exists "", r.
  - apply orb_true_iff in H as [H|H].
    + apply HasPrefix_inv in H as [r ->]. now exists "", r.
    + destruct (IH H) as (a & b & ->). now exists (String c a), b.
Qed.

Lemma Contains_HasPrefix (s p : string) :
  Strings.HasPrefix s p = true -> Strings.Contains s p = true.
Proof. destruct s; simpl; intros ->; reflexivity. Qed.

Lemma Contains_prefix (p s : string) : Strings.Contains (p ++ s) p = true.
Proof. apply Contains_HasPrefix, HasPrefix_app. Qed.

Lemma Split_not_nil (s : string) (sep : ascii) : Strings.Split s sep <> [].
Proof.
  destruct s as [|c s]; simpl; [discriminate|].
  destruct (Ascii.eqb c sep); [discriminate|].
  destruct (Strings.Split s sep); discriminate.
Qed.

Lemma Split_noByte (s : string) (sep : ascii) :
  noByte sep s = true -> Strings.Split s sep = [s].
Proof.
  induction s as [|c s IH]; simpl; intros H; [reflexivity|].
  apply andb_true_iff in H as [Hc Hs].
  apply negb_true_iff in Hc. rewrite Hc, (IH Hs). reflexivity.
Qed.

Lemma Split_app_sep (a b : string) (sep : ascii) :
  noByte sep a = true ->
  Strings.Split (a ++ String sep b) sep = a :: Strings.Split b sep.
Proof.
  induction a as [|c a IH]; simpl; intros H.
  - now rewrite Ascii.eqb_refl.
  - apply andb_true_iff in H as [Hc Ha].
    apply negb_true_iff in Hc. rewrite Hc, (IH Ha). reflexivity.
Qed.

(** A string in which the separator occurs splits into two parts at least:
    there [parts[1]] does not panic. *)
Lemma Split_index_1 (a b : string) (sep : ascii) :
  exists p, index (Strings.Split (a ++ String sep b) sep) 1 = Some p.
Proof.
  induction a as [|c a IH]; simpl.
  - rewrite Ascii.eqb_refl.
    destruct (Strings.Split b sep) as [|p ps] eqn:E.
    + now apply Split_not_nil in E.
    + now exists p.
  - destruct (Ascii.eqb c sep).
    + destruct (Strings.Split (a ++ String sep b) sep) as [|p ps] eqn:E.
      * now apply Split_not_nil in E.
      * now exists p.
    + destruct IH as [p Hp].
      destruct (Strings.Split (a ++ String sep b) sep) as [|q [|q' qs]];
        try discriminate.
      now exists p.
Qed.

Lemma string_app_assoc (a b c : string) : (a ++ b) ++ c = a ++ (b ++ c).
Proof. induction a as [|x a IH]; simpl; [reflexivity | now rewrite IH]. Qed.

Lemma Fields_space (c : ascii) (s : string) :
  Strings.isSpace c = true -> Strings.Fields (String c s) = Strings.Fields s.
Proof. intros H; simpl; now rewrite H. Qed.

Lemma isNameByte_not_space (c : ascii) :
  isNameByte c = true -> Strings.isSpace c = false.
Proof.
  unfold isNameByte, Strings.isSpace; intros H.
  apply andb_true_iff in H as [H1 H2].
  apply Nat.leb_le in H1. apply Nat.leb_le in H2.
  apply orb_false_iff; split.
  - apply andb_false_iff; right. apply Nat.leb_gt; lia.
  - apply Nat.eqb_neq; lia.
Qed.

(** A valid name followed by a space is the first field. *)
Lemma Fields_name (n rest : string) :
  validName n = true ->
  Strings.Fields (n ++ String " " rest) = n :: Strings.Fields rest.
Proof.
  unfold validName; intros H. apply andb_true_iff in H as [Hne Hall].
  induction n as [|c n IH]; [discriminate|].
  simpl in Hall. apply andb_true_iff in Hall as [Hc Hn].
  apply isNameByte_not_space in Hc.
  destruct n as [|d n].
  - simpl. rewrite Hc. reflexivity.
  - specialize (IH eq_refl Hn).
    change (Strings.Fields (String c (String d n ++ String " " rest))
            = String c (String d n) :: Strings.Fields rest).
    simpl in Hn. apply andb_true_iff in Hn as [Hd _].
    apply isNameByte_not_space in Hd.
    cbn [Strings.Fields String.append]. rewrite Hc, Hd.
    cbn [Strings.Fields String.append] in IH. rewrite Hd in IH.
    rewrite IH. reflexivity.
Qed.

(* ================================================================== *)
(** * The type mapper *)
(* ================================================================== *)

Section TypeMapper.


(** [getPostgresType] of [main.go]: the signed integers map to BIGINT,
    strings to VARCHAR, booleans to BOOLEAN, floats to DOUBLE PRECISION, a
    struct named [Time] to TIMESTAMP; the unsigned integers have no case and
    map, like every other type, to TEXT. *)
Lemma Main_getPostgresType_table (t : GoType) :
  (isSignedInt (TKind t) = true -> Main.getPostgresType t = "BIGINT") /\
  (isUnsignedInt (TKind t) = true -> Main.getPostgresType t = "TEXT") /\
  (TKind t = String_ -> Main.getPostgresType t = "VARCHAR") /\
  (TKind t = Bool -> Main.getPostgresType t = "BOOLEAN") /\
  (isFloat (TKind t) = true -> Main.getPostgresType t = "DOUBLE PRECISION") /\
  (TKind t = Struct -> TName t = "Time" -> Main.getPostgresType t = "TIMESTAMP").
Proof.
  destruct t as [k n p]; unfold Main.getPostgresType; cbn [TKind TName].
  repeat split; intros; subst; try reflexivity;
    destruct k; simpl in *; congruence.
Qed.

(** Both mappers are total and never return the empty string. *)
Lemma getPostgresType_nonempty (t : GoType) :
  Mig.getPostgresType t <> "" /\ Main.getPostgresType t <> "".
Proof.
  unfold Mig.getPostgresType, Main.getPostgresType.
  destruct (TKind t); split; try discriminate.
  - destruct (GoType_eqb t timeTime); discriminate.
  - destruct (String.eqb (TName t) "Time"); discriminate.
Qed.

End TypeMapper.

(** C6 (type mapping conformance): the mapper of [main.go] leaves the table
    at three rows, where the mapper of the [Migrator] follows it: an unsigned
    integer maps to TEXT (not BIGINT), a string to VARCHAR (not TEXT), and a
    float to DOUBLE PRECISION where the [Migrator] answers FLOAT. *)
Theorem C6_main_getPostgresType_leaves_table :
  Main.getPostgresType tUint = "TEXT" /\ Mig.getPostgresType tUint = "BIGINT" /\
  Main.getPostgresType tString = "VARCHAR" /\ Mig.getPostgresType tString = "TEXT" /\
  Main.getPostgresType tFloat64 = "DOUBLE PRECISION" /\
  Mig.getPostgresType tFloat64 = "FLOAT".
Proof. repeat split. Qed.

(* ================================================================== *)
(** * The annotation parsers *)
(* ================================================================== *)

Section Annotations.

(** The parsers of the [Migrator] guard every [parts[1]] by a test that the
    tag has a colon: they return for every tag. *)
Lemma Mig_getDefault_total (gormTag : string) :
  exists v, Mig.getDefault gormTag = Some v.
Proof.
  unfold Mig.getDefault.
  destruct (Strings.Contains gormTag "default:") eqn:E; [|now exists ""].
  apply Contains_inv in E as (a & b & ->).
  change (a ++ "default:" ++ b) with (a ++ "default" ++ String ":" b).
  rewrite <- string_app_assoc. apply Split_index_1.
Qed.

Lemma Mig_getComment_total (gormTag : string) :
  exists v, Mig.getComment gormTag = Some v.
Proof.
  unfold Mig.getComment.
  destruct (Strings.Contains gormTag "comment:") eqn:E; [|now exists ""].
  apply Contains_inv in E as (a & b & ->).
  change (a ++ "comment:" ++ b) with (a ++ "comment" ++ String ":" b).
  rewrite <- string_app_assoc. apply Split_index_1.
Qed.

Lemma Mig_foreignKeyOfParts_total (columnName : string) (parts : list string) :
  exists v, Mig.foreignKeyOfParts columnName parts = Some v.
Proof.
  induction parts as [|part rest IH]; cbn [Mig.foreignKeyOfParts];
    [now exists ""|].
  destruct (Strings.HasPrefix part "foreignKey:") eqn:E; [|exact IH].
  apply HasPrefix_inv in E as [r ->].
  destruct (Split_index_1 "foreignKey" r ":") as [p Hp].
  change ("foreignKey:" ++ r) with ("foreignKey" ++ String ":" r).
  rewrite Hp. cbn [bind]. eauto.
Qed.

Lemma Mig_getForeignKey_total (gormTag columnName : string) :
  exists v, Mig.getForeignKey gormTag columnName = Some v.
Proof.
  unfold Mig.getForeignKey.
  destruct (Strings.Contains gormTag "foreignKey"); [|now exists ""].
  apply Mig_foreignKeyOfParts_total.
Qed.

Lemma Mig_buildColumnDefinition_total (columnName : string) (t : GoType)
  (gormTag : string) :
  exists v, Mig.buildColumnDefinition columnName t gormTag = Some v.
Proof.
  unfold Mig.buildColumnDefinition.
  destruct (Mig_getDefault_total gormTag) as [v ->]. simpl.
  destruct (nonEmpty v); eauto.
Qed.

Lemma Mig_createField_total ns modelType acc field :
  exists acc', Mig.createField ns modelType acc field = Some acc'.
Proof.
  unfold Mig.createField.
  destruct (isGormModel field); [eauto|].
  destruct (Mig_buildColumnDefinition_total
              (ColumnName ns "" (FName field)) (FType field) (FTag field))
    as [c ->].
  destruct (Mig_getForeignKey_total (FTag field)
              (ColumnName ns "" (FName field))) as [k ->].
  destruct (Mig_getComment_total (FTag field)) as [m ->].
  simpl. eauto.
Qed.

Lemma forEach_total {S A} (body : S -> A -> option S) :
  (forall s x, exists s', body s x = Some s') ->
  forall l s, exists s', forEach body l s = Some s'.
Proof.
  intros Hb l; induction l as [|x l IH]; intros s; simpl; [eauto|].
  destruct (Hb s x) as [s' ->]. simpl. apply IH.
Qed.

(** [Migrator.generateCreateTableSQL] returns for every model, whatever its
    tags. *)
Lemma Mig_generateCreateTableSQL_total ns modelType :
  exists sql, Mig.generateCreateTableSQL ns modelType = Some sql.
Proof.
  unfold Mig.generateCreateTableSQL.
  destruct (forEach_total (Mig.createField ns modelType)
              (Mig_createField_total ns modelType) (MFields modelType) emptyAcc)
    as [acc ->].
  simpl. eauto.
Qed.

End Annotations.

(** C8 (no panic on malformed input): in [main.go] a [default], [comment] or
    [foreignKey] token without [:<value>] makes [parts[1]] panic, in
    [getDefault], [getComment] and [getForeignKey], and with them in
    [buildColumnDefinition] and [generateCreateTableSQL]; the [Migrator]
    parsers return on the same tags. *)
Theorem C8_main_parsers_panic_without_value :
  Main.getDefault "default" = None /\
  Main.getComment "comment" = None /\
  (forall columnName, Main.getForeignKey "foreignKey" columnName = None) /\
  (forall columnName t,
     Main.buildColumnDefinition columnName t "default" = None) /\
  (forall ns,
     Main.generateCreateTableSQL ns (oneField "Name" tString "default") = None) /\
  (forall columnName t,
     Mig.buildColumnDefinition columnName t "default"
     = Some (columnName ++ " " ++ Mig.getPostgresType t)).
Proof.
  repeat split; intros; reflexivity.
Qed.

(** C9 (order- and subset-tolerant parsing): [getDefault] and [getComment]
    return the text between the first and the second colon of the whole tag,
    so a value-bearing token before or after [default:<value>] changes the
    extracted default; [Migrator.getForeignKey], which splits the tag at the
    semicolons first, finds its token behind another one. *)
Theorem C9_getDefault_reads_up_to_second_colon :
  Mig.getDefault "default:5;comment:hi" = Some "5;comment" /\
  Mig.getDefault "comment:hi;default:5" = Some "hi;default" /\
  Mig.getComment "default:5;comment:hi" = Some "5;comment" /\
  Main.getDefault "default:5;comment:hi" = Some "5;comment" /\
  (forall columnName t,
     Mig.buildColumnDefinition columnName t "default:5;comment:hi"
     = Some ((columnName ++ " " ++ Mig.getPostgresType t)
               ++ " DEFAULT " ++ "5;comment")) /\
  (forall columnName,
     Mig.getForeignKey "comment:hi;foreignKey:Orders" columnName
     = Some ("FOREIGN KEY (" ++ columnName ++ ") REFERENCES " ++ "Orders" ++ "(id)")).
Proof. repeat split; intros; reflexivity. Qed.

(** The text of a foreign-key statement whose referenced column is [id]. *)
Lemma Mig_getForeignKey_first_part (table rest columnName : string) :
  noByte ":" table = true -> noByte ";" table = true ->
  Mig.foreignKeyOfParts columnName (("foreignKey:" ++ table) :: Strings.Split rest ";")
  = Some ("FOREIGN KEY (" ++ columnName ++ ") REFERENCES " ++ table ++ "(id)").
Proof.
  intros Hc Hs. cbn [Mig.foreignKeyOfParts].
  rewrite HasPrefix_app.
  change ("foreignKey:" ++ table) with ("foreignKey" ++ String ":" table).
  rewrite Split_app_sep by reflexivity.
  rewrite (Split_noByte _ _ Hc). reflexivity.
Qed.




(* ================================================================== *)
(** * The create-table path *)
(* ================================================================== *)

Section CreateTable.

(** [main.go] returns the empty string for a model without fields. *)
Lemma Main_generateCreateTableSQL_empty (ns : NamingStrategy) (name : string) :
  Main.generateCreateTableSQL ns (mkModel name []) = Some "".
Proof. reflexivity. Qed.

(** The alter and rollback texts of an empty difference list are empty. *)
Lemma generateAlterTableSQL_nil (tableName : string) :
  Engine.generateAlterTableSQL tableName [] = "".
Proof. reflexivity. Qed.

Lemma generateRollbackAlterTableSQL_nil (tableName : string) :
  Engine.generateRollbackAlterTableSQL tableName [] = Some "".
Proof. reflexivity. Qed.

(** What [generateAlterTableSQL] returns is empty for the empty list only. *)
Lemma generateAlterTableSQL_nonempty (tableName : string) (ds : list string) :
  ds <> [] -> Engine.generateAlterTableSQL tableName ds <> "".
Proof. destruct ds; [congruence | discriminate]. Qed.

End CreateTable.

(** C3 (empty-input safety): [Migrator.generateCreateTableSQL] has no test
    for an empty column list; for a model without fields it returns a
    [CREATE TABLE] statement with an empty column list, not the empty string
    that [main.go] returns and that [GenerateMigrations] tests for. *)
Theorem C3_Mig_create_of_empty_model :
  Mig.generateCreateTableSQL exampleNaming emptyModel
  = Some ("CREATE TABLE users (" ++ Strings.nl ++ Strings.nl ++ ");") /\
  (forall ns name,
     Mig.generateCreateTableSQL ns (mkModel name []) <> Some "") /\
  Main.generateCreateTableSQL exampleNaming emptyModel = Some "".
Proof.
  repeat split; try reflexivity.
  intros ns name. discriminate.
Qed.

(** C7 (create-table appendices): [Migrator.generateCreateTableSQL] collects
    the [CREATE INDEX] statements in [indexes] and never reads that slice:
    its text does not depend on it, and an index-tagged column gets no
    statement, where a foreign key and a comment get theirs; [main.go]
    appends none of the three. *)
Theorem C7_index_statements_are_dropped :
  (forall tableName cols pks fks idx cms,
     Mig.renderCreate tableName (mkAcc cols pks fks idx cms)
     = Mig.renderCreate tableName (mkAcc cols pks fks [] cms)) /\
  Mig.generateCreateTableSQL exampleNaming (oneField "Email" tString "index")
  = Some ("CREATE TABLE users (" ++ Strings.nl ++ "email TEXT" ++ Strings.nl ++ ");") /\
  Mig.generateCreateTableSQL exampleNaming
    (oneField "OrderID" tInt "foreignKey:Orders;comment:the order")
  = Some ("CREATE TABLE users (" ++ Strings.nl ++ "order_id BIGINT" ++ Strings.nl
            ++ ");" ++ Strings.nl
            ++ "FOREIGN KEY (order_id) REFERENCES Orders(id)" ++ Strings.nl
            ++ Strings.nl
            ++ "COMMENT ON COLUMN users.order_id IS 'Orders;comment';"
            ++ Strings.nl) /\
  Main.generateCreateTableSQL exampleNaming
    (oneField "OrderID" tInt "index;foreignKey:Orders;comment:the order")
  = Some ("CREATE TABLE users (" ++ Strings.nl ++ "order_id BIGINT" ++ Strings.nl
            ++ ");").
Proof. repeat split; reflexivity. Qed.

(* ================================================================== *)
(** * The diff engine *)
(* ================================================================== *)

Section Diff.

Variable getPostgresType : GoType -> string.
Variable ns : NamingStrategy.
Variable db : DB.

Lemma compareField_differences tableName acc f d :
  In d (fst (Engine.compareField getPostgresType ns db tableName acc f)) ->
  In d (fst acc) \/ fromField getPostgresType ns f d.
Proof.
  unfold Engine.compareField, fromField. destruct acc as [differences logged].
  destruct (isGormModel f) eqn:G; [now left|].
  destruct (columnExists db tableName _) as [[|]|err]; cbn [negb fst].
  - destruct (columnDataType db tableName _) as [ty|err]; [|now left].
    destruct (negb _); [|now left].
    unfold append; cbn [fst]. intros H. apply in_app_or in H as [H|[<-|[]]].
    + now left.
    + right; split; [reflexivity|]. right; reflexivity.
  - unfold append; cbn [fst]. intros H. apply in_app_or in H as [H|[<-|[]]].
    + now left.
    + right; split; [reflexivity|]. left; reflexivity.
  - now left.
Qed.

Lemma compare_fold_differences tableName fields acc d :
  In d (fst (fold_left (Engine.compareField getPostgresType ns db tableName)
               fields acc)) ->
  In d (fst acc) \/ exists f, In f fields /\ fromField getPostgresType ns f d.
Proof.
  revert acc; induction fields as [|f fields IH]; intros acc H; cbn in H.
  - now left.
  - apply IH in H as [H|(g & Hg & Hd)].
    + apply compareField_differences in H as [H|H]; [now left|].
      right; exists f; split; [now left | exact H].
    + right; exists g; split; [now right | exact Hd].
Qed.

(** The differences are the rendering of a list of Schema Differences, each
    for the column of a model field. *)
Lemma compare_fold_renders tableName fields acc ds0 :
  fst acc = map render ds0 ->
  exists ds,
    fst (fold_left (Engine.compareField getPostgresType ns db tableName)
           fields acc) = map render (ds0 ++ ds) /\
    forall D, In D ds ->
      exists f, In f fields /\ isGormModel f = false /\
                diffName D = ColumnName ns "" (FName f).
Proof.
  revert acc ds0; induction fields as [|f fields IH]; intros acc ds0 Hacc.
  - exists []. rewrite app_nil_r. split; [exact Hacc | intros D []].
  - cbn [fold_left].
    assert (Hstep :
      exists ds1,
        fst (Engine.compareField getPostgresType ns db tableName acc f)
        = map render (ds0 ++ ds1) /\
        forall D, In D ds1 ->
          isGormModel f = false /\ diffName D = ColumnName ns "" (FName f)).
    { unfold Engine.compareField. destruct acc as [differences logged].
      cbn [fst] in Hacc.
      assert (Hsame : exists ds1,
                differences = map render (ds0 ++ ds1) /\
                forall D, In D ds1 ->
                  isGormModel f = false /\
                  diffName D = ColumnName ns "" (FName f)).
      { exists []. rewrite app_nil_r. split; [exact Hacc | intros D []]. }
      destruct (isGormModel f) eqn:G; [exact Hsame|].
      destruct (columnExists db tableName _) as [[|]|err]; cbn [negb fst];
        [| |exact Hsame].
      - destruct (columnDataType db tableName _) as [ty|err]; [|exact Hsame].
        destruct (negb _); [|exact Hsame].
        eexists [AlterColumnType _ _]. unfold append.
        rewrite map_app, Hacc. split; [reflexivity|].
        intros D [<-|[]]. now split.
      - eexists [AddColumn _ _]. unfold append.
        rewrite map_app, Hacc. split; [reflexivity|].
        intros D [<-|[]]. now split. }
    destruct Hstep as (ds1 & H1 & Hf).
    destruct (IH _ _ H1) as (ds2 & H2 & Hfs).
    exists (ds1 ++ ds2)%list. split.
    + now rewrite app_assoc.
    + intros D HD. apply in_app_or in HD as [HD|HD].
      * destruct (Hf D HD) as [Hg Hn]. exists f. repeat split; auto. now left.
      * destruct (Hfs D HD) as (g & Hg & Hrest). exists g.
        split; [now right | exact Hrest].
Qed.

End Diff.

Lemma differenceColumn_render (D : Difference) :
  validName (diffName D) = true ->
  differenceColumn (render D) = Some (diffName D).
Proof.
  intros H. unfold differenceColumn.
  destruct D as [n t|n t]; cbn [render diffName] in *.
  - change ("ADD COLUMN " ++ n ++ " " ++ t)
      with ("ADD" ++ String " " ("COLUMN" ++ String " " (n ++ String " " t))).
    rewrite (Fields_name "ADD") by reflexivity.
    rewrite (Fields_name "COLUMN") by reflexivity.
    rewrite (Fields_name n _ H). reflexivity.
  - change ("ALTER COLUMN " ++ n ++ " TYPE " ++ t)
      with ("ALTER" ++ String " "
              ("COLUMN" ++ String " " (n ++ String " " ("TYPE " ++ t)))).
    rewrite (Fields_name "ALTER") by reflexivity.
    rewrite (Fields_name "COLUMN") by reflexivity.
    rewrite (Fields_name n _ H). reflexivity.
Qed.

Lemma render_not_drop (D : Difference) :
  Strings.HasPrefix (render D) "DROP COLUMN" = false.
Proof. destruct D; reflexivity. Qed.

Lemma modelColumns_In (ns : NamingStrategy) (model : Model) (f : Field) :
  In f (MFields model) -> isGormModel f = false ->
  In (ColumnName ns "" (FName f)) (modelColumns ns model).
Proof.
  intros Hin Hg. unfold modelColumns.
  apply (in_map (fun f => ColumnName ns "" (FName f))).
  apply filter_In. split; [exact Hin|]. now rewrite Hg.
Qed.

(** C1 (diff additivity): every difference [compareModelToTable] emits, with
    the type mapper of [main.go] or of the [Migrator], renders an [AddColumn]
    or an [AlterColumnType] of a column of the model; none is a
    [DROP COLUMN]; and a column that is not a column of the model - a live
    column absent from the model among them - is not the column a difference
    names. *)
Theorem C1_diff_additivity (getPostgresType : GoType -> string)
  (ns : NamingStrategy) (db : DB) (model : Model) (d : string) :
  In d (fst (Engine.compareModelToTable getPostgresType ns db model)) ->
  (exists D, d = render D /\ In (diffName D) (modelColumns ns model)) /\
  Strings.HasPrefix d "DROP COLUMN" = false /\
  (forall c,
     forallb validName (modelColumns ns model) = true ->
     ~ In c (modelColumns ns model) ->
     differenceColumn d <> Some c).
Proof.
  intros H. unfold Engine.compareModelToTable in H.
  apply compare_fold_differences in H as [[]|(f & Hf & Hg & Hd)].
  assert (HD : exists D, d = render D /\ In (diffName D) (modelColumns ns model)).
  { destruct Hd as [->| ->]; eexists; (split; [reflexivity|]);
      cbn [diffName]; now apply modelColumns_In. }
  destruct HD as (D & -> & HD). split; [|split].
  - now exists D.
  - apply render_not_drop.
  - intros c Hvalid Hc. rewrite forallb_forall in Hvalid.
    rewrite (differenceColumn_render _ (Hvalid _ HD)).
    intros [= <-]. now apply Hc.
Qed.

(** The differences of a model whose column names are valid are the
    rendering of well-named Schema Differences: the batches
    [generateRollbackAlterTableSQL] is called on. *)
Lemma compareModelToTable_wellNamed (getPostgresType : GoType -> string)
  (ns : NamingStrategy) (db : DB) (model : Model) :
  forallb validName (modelColumns ns model) = true ->
  exists ds,
    fst (Engine.compareModelToTable getPostgresType ns db model) = map render ds /\
    forallb wellNamed ds = true.
Proof.
  intros Hvalid. unfold Engine.compareModelToTable.
  destruct (compare_fold_renders getPostgresType ns db
              (TableName ns (MName model)) (MFields model) ([], []) []
              eq_refl) as (ds & Hds & Hnames).
  exists ds. split; [exact Hds|].
  apply forallb_forall. intros D HD.
  destruct (Hnames D HD) as (f & Hf & Hg & Hn).
  unfold wellNamed. rewrite Hn.
  rewrite forallb_forall in Hvalid. apply Hvalid.
  now apply modelColumns_In.
Qed.

Lemma C1_diff_additivity_witness :
  (exists D, "ADD COLUMN email TEXT" = render D /\
             In (diffName D) (modelColumns exampleNaming Main.User)) /\
  Strings.HasPrefix "ADD COLUMN email TEXT" "DROP COLUMN" = false /\
  differenceColumn "ADD COLUMN email TEXT" <> Some "id".
Proof.
  destruct (C1_diff_additivity Mig.getPostgresType exampleNaming
              dbMissingEmail Main.User "ADD COLUMN email TEXT")
    as (H1 & H2 & H3).
  - vm_compute. left; reflexivity.
  - split; [exact H1|]. split; [exact H2|].
    apply H3; [reflexivity|].
    simpl. intros [H|[H|[]]]; discriminate H.
Defined.

(* ================================================================== *)
(** * The alter-table path *)
(* ================================================================== *)

Section Rollback.

Lemma rollbackStep_add (stmts : list string) (n t : string) :
  validName n = true ->
  Engine.rollbackStep stmts (render (AddColumn n t))
  = Some (append stmts ("DROP COLUMN " ++ n)).
Proof.
  intros H. unfold Engine.rollbackStep.
  replace (Strings.HasPrefix (render (AddColumn n t)) "ADD COLUMN")
    with true by reflexivity.
  pose proof (differenceColumn_render (AddColumn n t) H) as E.
  unfold differenceColumn in E. rewrite E. reflexivity.
Qed.

Lemma rollbackStep_alter (stmts : list string) (n t : string) :
  Engine.rollbackStep stmts (render (AlterColumnType n t)) = Some stmts.
Proof. reflexivity. Qed.

Lemma rollback_loop (ds : list Difference) (stmts : list string) :
  forallb wellNamed ds = true ->
  forEach Engine.rollbackStep (map render ds) stmts
  = Some (stmts ++ dropClauses ds)%list.
Proof.
  revert stmts; induction ds as [|D ds IH]; intros stmts H.
  - cbn. now rewrite app_nil_r.
  - cbn [forallb] in H. apply andb_true_iff in H as [HD Hds].
    cbn [map forEach]. destruct D as [n t|n t].
    + rewrite (rollbackStep_add stmts n t HD). cbn [bind].
      rewrite (IH _ Hds). unfold append, dropClauses. cbn.
      now rewrite <- app_assoc.
    + rewrite rollbackStep_alter. cbn [bind]. now rewrite (IH _ Hds).
Qed.


End Rollback.



(* ================================================================== *)
(** * The orchestrating loop *)
(* ================================================================== *)

Section Orchestration.

Lemma logAll_run (msgs : list string) (t : list Event) (c : nat) :
  logAll msgs (mkWorld t c) = (mkWorld (t ++ map Log msgs)%list c, Normal tt).
Proof.
  revert t; induction msgs as [|m msgs IH]; intros t; cbn [logAll map].
  - unfold ret. now rewrite app_nil_r.
  - unfold bindM, logPrintf, emit, append. cbn [trace clock].
    rewrite IH. now rewrite <- app_assoc.
Qed.

Lemma filesWritten_app (t u : list Event) :
  filesWritten (t ++ u) = (filesWritten t ++ filesWritten u)%list.
Proof. apply filter_app. Qed.

Lemma filesWritten_logs (msgs : list string) : filesWritten (map Log msgs) = [].
Proof. induction msgs; [reflexivity | exact IHmsgs]. Qed.

(** Without a difference that starts with [ADD COLUMN] the loop of
    [generateRollbackAlterTableSQL] collects no statement. *)
Lemma rollback_without_additions (tableName : string) (ds : list string) :
  (forall d, In d ds -> Strings.HasPrefix d "ADD COLUMN" = false) ->
  Engine.generateRollbackAlterTableSQL tableName ds = Some "".
Proof.
  intros H. unfold Engine.generateRollbackAlterTableSQL.
  assert (E : forall stmts, forEach Engine.rollbackStep ds stmts = Some stmts).
  { induction ds as [|d ds IH]; intros stmts; [reflexivity|].
    cbn [forEach]. unfold Engine.rollbackStep at 1.
    rewrite (H d (or_introl eq_refl)). cbn [bind].
    apply IH. intros d' Hd'. apply H. now right. }
  now rewrite E.
Qed.

Lemma alter_prefix_not_add (d : string) :
  Strings.HasPrefix d "ALTER COLUMN" = true ->
  Strings.HasPrefix d "ADD COLUMN" = false.
Proof. intros H. apply HasPrefix_inv in H as [r ->]. reflexivity. Qed.

End Orchestration.

(** C5 (type-change-only migration), as the code has it: when the table
    exists and the differences of a model are type changes only, the loop body
    of [generateMigrations] / [GenerateMigrations] finds the rollback text
    empty, logs "Failed to generate ALTER TABLE SQL for <table>" and goes on
    to the next model: it reads no timestamp and writes no file, neither the
    forward nor the backward one. *)
Theorem C5_type_changes_only_write_no_file
  (getPostgresType : GoType -> string)
  (generateCreateTableSQL : NamingStrategy -> Model -> option string)
  (ns : NamingStrategy) (db : DB) (os : OS) (outputDir : string) (debug : bool)
  (model : Model) (differences logged : list string) (w : World) :
  tableExists db (TableName ns (MName model)) = Row true ->
  Engine.compareModelToTable getPostgresType ns db model = (differences, logged) ->
  differences <> [] ->
  (forall d, In d differences -> Strings.HasPrefix d "ALTER COLUMN" = true) ->
  exists w',
    Engine.migrateModel getPostgresType generateCreateTableSQL ns db os
      outputDir debug model w = (w', Normal tt) /\
    trace w' =
      (trace w
       ++ (if debug then [Log ("Processing model: " ++ MName model)] else [])
       ++ map Log logged
       ++ [Log ("Failed to generate ALTER TABLE SQL for "
                  ++ TableName ns (MName model))])%list /\
    clock w' = clock w /\
    filesWritten (trace w') = filesWritten (trace w).
Proof.
  intros Hexists Hcmp Hne Halter. destruct w as [t c].
  assert (Hroll : Engine.generateRollbackAlterTableSQL
                    (TableName ns (MName model)) differences = Some "").
  { apply rollback_without_additions. intros d Hd.
    now apply alter_prefix_not_add, Halter. }
  assert (Hlen : (0 <? length differences)%nat = true).
  { destruct differences; [congruence | reflexivity]. }
  eexists. split.
  - unfold Engine.migrateModel. rewrite Hexists, Hcmp. cbn [negb].
    unfold bindM at 1.
    replace (when debug (logPrintf ("Processing model: " ++ MName model))
               (mkWorld t c))
      with (mkWorld (t ++ (if debug
                           then [Log ("Processing model: " ++ MName model)]
                           else []))%list c, Normal tt)
      by (destruct debug; cbn; unfold append; now rewrite ?app_nil_r).
    unfold bindM at 1. rewrite logAll_run. rewrite Hlen.
    unfold bindM at 1. rewrite Hroll. cbn [orPanic].
    rewrite orb_true_r. unfold logPrintf, emit, append. cbn [trace clock].
    reflexivity.
  - cbn [trace clock]. split; [|split; [reflexivity|]].
    + now rewrite <- !app_assoc.
    + rewrite !filesWritten_app, filesWritten_logs.
      destruct debug; cbn; now rewrite ?app_nil_r.
Qed.

Lemma C5_type_changes_only_write_no_file_witness :
  exists w',
    Engine.migrateModel Mig.getPostgresType Mig.generateCreateTableSQL
      exampleNaming dbVaryingEmail exampleOS "migrations" false Main.User
      emptyWorld = (w', Normal tt) /\
    trace w' =
      (trace emptyWorld
       ++ (if false then [Log ("Processing model: " ++ MName Main.User)] else [])
       ++ map Log []
       ++ [Log ("Failed to generate ALTER TABLE SQL for "
                  ++ TableName exampleNaming (MName Main.User))])%list /\
    clock w' = clock emptyWorld /\
    filesWritten (trace w') = filesWritten (trace emptyWorld).
Proof.
  apply (C5_type_changes_only_write_no_file Mig.getPostgresType
           Mig.generateCreateTableSQL exampleNaming dbVaryingEmail exampleOS
           "migrations" false Main.User
           ["ALTER COLUMN email TYPE TEXT"] [] emptyWorld).
  - reflexivity.
  - reflexivity.
  - discriminate.
  - intros d [<-|[]]. reflexivity.
Defined.

(** C5 as the spec states it fails on scenario 3: the differences of [User]
    against a table whose [email] is [character varying] are one type change,
    the alter text is not empty, the rollback text is, and the run writes no
    file at all - the forward migration is not created. *)
Lemma C5_counterexample :
  fst (Mig.compareModelToTable varyingEmailMigrator Main.User)
  = ["ALTER COLUMN email TYPE TEXT"] /\
  Mig.generateAlterTableSQL "users" ["ALTER COLUMN email TYPE TEXT"]
  = "ALTER TABLE users" ++ Strings.nl ++ "ALTER COLUMN email TYPE TEXT;" /\
  Mig.generateRollbackAlterTableSQL "users" ["ALTER COLUMN email TYPE TEXT"]
  = Some "" /\
  Mig.GenerateMigrations varyingEmailMigrator exampleOS emptyWorld
  = (mkWorld [Log "Failed to generate ALTER TABLE SQL for users"] 0, Normal tt) /\
  ~ (exists path content,
       In (WriteFile path content)
         (trace (fst (Mig.GenerateMigrations varyingEmailMigrator exampleOS
                        emptyWorld)))).
Proof.
  repeat split; try reflexivity.
  intros (path & content & H).
  vm_compute in H. destruct H as [H|[]]. discriminate H.
Qed.

(* ================================================================== *)
(** * [RegisterModels] *)
(* ================================================================== *)

Section RegisterModels.

Import Register.

Lemma nth_setArray_same (h : Heap) (i : nat) (a : list Value) :
  i < length h -> nth i (setArray h i a) [] = a.
Proof.
  revert i; induction h as [|b h IH]; intros i Hi; cbn in *; [lia|].
  destruct i as [|i]; [reflexivity|]. cbn. apply IH. lia.
Qed.

Lemma nth_setArray_other (h : Heap) (i j : nat) (a : list Value) :
  i <> j -> nth j (setArray h i a) [] = nth j h [].
Proof.
  revert i j; induction h as [|b h IH]; intros i j Hij; cbn.
  - reflexivity.
  - destruct i as [|i], j as [|j]; cbn; try reflexivity; try congruence.
    apply IH. congruence.
Qed.

Lemma setArray_beyond (h : Heap) (i : nat) (a : list Value) :
  length h <= i -> setArray h i a = h.
Proof.
  revert i; induction h as [|b h IH]; intros i Hi; cbn in *; [reflexivity|].
  destruct i as [|i]; [lia|]. f_equal. apply IH. lia.
Qed.

Lemma firstn_store (a : list Value) (i : nat) (vs : list Value) :
  i <= length a -> firstn i (store a i vs) = firstn i a.
Proof.
  intros Hi. unfold store.
  rewrite firstn_app, firstn_firstn, Nat.min_id.
  rewrite length_firstn, Nat.min_l by exact Hi.
  rewrite Nat.sub_diag. cbn. apply app_nil_r.
Qed.


Lemma valid_inv (h : Heap) (s : Slice) :
  valid h s = true ->
  len s <= cap s /\ offset s + cap s <= length (backing h s) /\
  (array s < length h \/ cap s = 0).
Proof.
  unfold valid. intros H.
  apply andb_true_iff in H as [H H3]. apply andb_true_iff in H as [H1 H2].
  apply Nat.leb_le in H1. apply Nat.leb_le in H2.
  apply orb_true_iff in H3 as [H3|H3];
    [apply Nat.ltb_lt in H3 | apply Nat.eqb_eq in H3]; auto.
Qed.

Lemma length_elems (h : Heap) (s : Slice) :
  valid h s = true -> length (elems h s) = len s.
Proof.
  intros H. apply valid_inv in H as (H1 & H2 & _).
  unfold elems. rewrite length_firstn, length_skipn. lia.
Qed.

(** What [models = append(models, models...)] does: the local variable
    holds the elements twice; the cells of the caller's slice, and every other
    array, are as before. *)
Lemma selfAppend_spec (grow : nat -> nat -> nat) (h : Heap) (s : Slice) :
  valid h s = true ->
  elems (fst (selfAppend grow h s)) (snd (selfAppend grow h s))
  = (elems h s ++ elems h s)%list /\
  firstn (offset s + len s) (backing (fst (selfAppend grow h s)) s)
  = firstn (offset s + len s) (backing h s) /\
  (forall i, i < length h -> i <> array s ->
     nth i (fst (selfAppend grow h s)) [] = nth i h []).
Proof.
  intros Hv. pose proof (length_elems h s Hv) as Hlen.
  pose proof (valid_inv h s Hv) as (H1 & H2 & H3).
  unfold selfAppend, goAppend. rewrite Hlen.
  destruct (len s + len s <=? cap s)%nat eqn:E; cbn [fst snd].
  - apply Nat.leb_le in E.
    destruct (Nat.lt_ge_cases (array s) (length h)) as [Ha|Ha].
    + repeat split.
      * unfold elems at 1, backing at 1. cbn [array offset len].
        rewrite nth_setArray_same by exact Ha.
        unfold store. fold (backing h s).
        rewrite skipn_app, length_firstn, Nat.min_l by lia.
        replace (offset s - (offset s + len s)) with 0 by lia.
        rewrite <- firstn_skipn_comm. fold (elems h s). cbn [skipn].
        rewrite firstn_app, Hlen.
        rewrite firstn_all2 by lia.
        replace (len s + len s - len s) with (len s) by lia.
        rewrite firstn_app, Hlen, Nat.sub_diag. cbn [firstn].
        rewrite firstn_all2 by lia. now rewrite app_nil_r.
      * unfold backing at 1. rewrite nth_setArray_same by exact Ha.
        fold (backing h s). apply firstn_store. lia.
      * intros i _ Hi. apply nth_setArray_other. congruence.
    + assert (Hc : cap s = 0) by lia.
      assert (Hl : len s = 0) by lia.
      rewrite setArray_beyond by exact Ha.
      repeat split.
      unfold elems. cbn [array offset len]. fold (backing h s).
      rewrite Hl. reflexivity.
  - apply Nat.leb_gt in E.
    assert (Ha : array s < length h) by lia.
    repeat split.
    + unfold elems at 1, backing at 1. cbn [array offset len].
      rewrite nth_middle. cbn [skipn].
      rewrite app_assoc, firstn_app, length_app, Hlen, Nat.sub_diag.
      cbn [firstn]. rewrite app_nil_r. apply firstn_all2.
      rewrite length_app, Hlen. lia.
    + unfold backing. now rewrite app_nth1 by exact Ha.
    + intros i Hi _. now apply app_nth1.
Qed.

End RegisterModels.




(* ================================================================== *)
(** * The end-to-end scenarios *)
(* ================================================================== *)

Section Scenarios.

(** Scenario 1: [User] against a database without the table [users]. *)
Example scenario_create_users :
  Mig.generateCreateTableSQL exampleNaming Main.User
  = Some ("CREATE TABLE users (" ++ Strings.nl
            ++ "id BIGSERIAL PRIMARY KEY," ++ Strings.nl
            ++ "created_at TIMESTAMP NOT NULL DEFAULT CURRENT_TIMESTAMP," ++ Strings.nl
            ++ "updated_at TIMESTAMP NOT NULL DEFAULT CURRENT_TIMESTAMP," ++ Strings.nl
            ++ "deleted_at TIMESTAMP NULL," ++ Strings.nl
            ++ "name TEXT," ++ Strings.nl
            ++ "email TEXT" ++ Strings.nl ++ ");").
Proof. reflexivity. Qed.

(** Scenario 1, the run: the two files are written, forward then backward. *)
Example scenario_create_users_run :
  filesWritten
    (trace (fst (Mig.GenerateMigrations
                   (Mig.mkMigrator exampleConfig exampleNaming (catalogue [])
                      [Main.User])
                   exampleOS emptyWorld)))
  = [ WriteFile "migrations/20240102030405_create_users_table.up.sql"
        ("CREATE TABLE users (" ++ Strings.nl
           ++ "id BIGSERIAL PRIMARY KEY," ++ Strings.nl
           ++ "created_at TIMESTAMP NOT NULL DEFAULT CURRENT_TIMESTAMP," ++ Strings.nl
           ++ "updated_at TIMESTAMP NOT NULL DEFAULT CURRENT_TIMESTAMP," ++ Strings.nl
           ++ "deleted_at TIMESTAMP NULL," ++ Strings.nl
           ++ "name TEXT," ++ Strings.nl
           ++ "email TEXT" ++ Strings.nl ++ ");");
      WriteFile "migrations/20240102030405_drop_users_table.down.sql"
        "DROP TABLE IF EXISTS users;" ].
Proof. reflexivity. Qed.

(** Scenario 2: the table lacks [email]. *)
Example scenario_add_email :
  fst (Engine.compareModelToTable Mig.getPostgresType exampleNaming
         dbMissingEmail Main.User)
  = ["ADD COLUMN email TEXT"] /\
  Mig.generateAlterTableSQL "users" ["ADD COLUMN email TEXT"]
  = "ALTER TABLE users" ++ Strings.nl ++ "ADD COLUMN email TEXT;" /\
  Mig.generateRollbackAlterTableSQL "users" ["ADD COLUMN email TEXT"]
  = Some ("ALTER TABLE users" ++ Strings.nl ++ "DROP COLUMN email;").
Proof. repeat split. Qed.

(** Scenario 4: every column is there with its type, in either case of the
    letters: no difference, no file. *)
Example scenario_no_difference :
  let db := catalogue [("users", (baseColumns ++ [("name", "text");
                                                  ("email", "TEXT")])%list)] in
  Engine.compareModelToTable Mig.getPostgresType exampleNaming db Main.User
  = ([], []) /\
  Mig.GenerateMigrations
    (Mig.mkMigrator exampleConfig exampleNaming db [Main.User])
    exampleOS emptyWorld
  = (emptyWorld, Normal tt).
Proof. split; reflexivity. Qed.

End Scenarios.

(* ================================================================== *)
(** * Further properties: the annotation parsers *)
(* ================================================================== *)

Section ParserFacts.

Lemma noByte_app (c : ascii) (a b : string) :
  noByte c (a ++ b) = noByte c a && noByte c b.
Proof.
  induction a as [|d a IH]; cbn [noByte String.append]; [reflexivity|].
  now rewrite IH, andb_assoc.
Qed.

(** A string in which the byte occurs splits at its first occurrence. *)
Lemma noByte_false_split (c : ascii) (s : string) :
  noByte c s = false -> exists a b, s = a ++ String c b.
Proof.
  induction s as [|d s IH]; cbn [noByte]; [discriminate|].
  destruct (Ascii.eqb d c) eqn:E; cbn [negb andb]; intros H.
  - apply Ascii.eqb_eq in E; subst d. now exists "", s.
  - destruct (IH H) as (a & b & ->). now exists (String d a), b.
Qed.

(** [parts[1]] of the split at [sep] panics exactly on the strings without
    [sep]. *)
Lemma Split_index_1_None (s : string) (sep : ascii) :
  index (Strings.Split s sep) 1 = None <-> noByte sep s = true.
Proof.
  split; intros H.
  - destruct (noByte sep s) eqn:E; [reflexivity|].
    apply noByte_false_split in E as (a & b & ->).
    destruct (Split_index_1 a b sep) as [p Hp]. congruence.
  - now rewrite Split_noByte.
Qed.

Lemma Contains_app (a sub b : string) :
  Strings.Contains (a ++ sub ++ b) sub = true.
Proof.
  induction a as [|c a IH].
  - change ("" ++ sub ++ b) with (sub ++ b). apply Contains_prefix.
  - change (String c a ++ sub ++ b) with (String c (a ++ sub ++ b)).
    cbn [Strings.Contains]. rewrite IH. apply orb_true_r.
Qed.

Lemma Split_app (a b : string) (sep : ascii) :
  Strings.Split (a ++ String sep b) sep
  = (Strings.Split a sep ++ Strings.Split b sep)%list.
Proof.
  induction a as [|c a IH]; cbn [String.append Strings.Split].
  - now rewrite Ascii.eqb_refl.
  - destruct (Ascii.eqb c sep); [now rewrite IH|].
    rewrite IH. destruct (Strings.Split a sep) as [|p ps] eqn:E.
    + now apply Split_not_nil in E.
    + reflexivity.
Qed.

Lemma foreignKeyOfParts_skip (columnName : string) (l1 l2 : list string) :
  forallb (fun part => negb (Strings.HasPrefix part "foreignKey:")) l1 = true ->
  Mig.foreignKeyOfParts columnName (l1 ++ l2)
  = Mig.foreignKeyOfParts columnName l2.
Proof.
  induction l1 as [|part l1 IH]; intros H; [reflexivity|].
  cbn [forallb] in H. apply andb_true_iff in H as [Hp Hl].
  apply negb_true_iff in Hp.
  cbn [app Mig.foreignKeyOfParts]. rewrite Hp. now apply IH.
Qed.

Lemma renderCreate_prefix (tableName : string) (acc : CreateAcc) :
  exists rest,
    Mig.renderCreate tableName acc
    = "CREATE TABLE " ++ tableName ++ " (" ++ Strings.nl ++ rest.
Proof.
  unfold Mig.renderCreate.
  destruct (0 <? length (primaryKeys acc))%nat,
           (0 <? length (foreignKeys acc))%nat,
           (0 <? length (comments acc))%nat;
    rewrite !string_app_assoc; eexists; reflexivity.
Qed.

End ParserFacts.

Lemma Mig_generateCreateTableSQL_prefix (ns : NamingStrategy) (model : Model) :
  exists rest,
    Mig.generateCreateTableSQL ns model
    = Some ("CREATE TABLE " ++ TableName ns (MName model) ++ " ("
              ++ Strings.nl ++ rest).
Proof.
  unfold Mig.generateCreateTableSQL.
  destruct (forEach_total (Mig.createField ns model)
              (Mig_createField_total ns model) (MFields model) emptyAcc)
    as [acc ->].
  cbn [bind].
  destruct (renderCreate_prefix (TableName ns (MName model)) acc) as [rest ->].
  now exists rest.
Qed.

(** X1: [Migrator.generateCreateTableSQL] returns for every model, whatever
    the tags of its fields, and its text starts with
    [CREATE TABLE <table> (]: it is never the empty string the caller tests
    for. *)
Theorem Mig_create_returns_statement (ns : NamingStrategy) (model : Model) :
  exists rest,
    Mig.generateCreateTableSQL ns model
    = Some ("CREATE TABLE " ++ TableName ns (MName model) ++ " ("
              ++ Strings.nl ++ rest).
Proof. apply Mig_generateCreateTableSQL_prefix. Qed.

(** X2: in [main.go], [getDefault] panics exactly on the tags without a
    colon, and [buildColumnDefinition] exactly on the tags that contain
    [default] and no colon. *)
Theorem Main_buildColumnDefinition_panics_iff
  (columnName : string) (t : GoType) (gormTag : string) :
  (Main.getDefault gormTag = None <-> noByte ":" gormTag = true) /\
  (Main.buildColumnDefinition columnName t gormTag = None <->
   Strings.Contains gormTag "default" = true /\ noByte ":" gormTag = true).
Proof.
  split; [apply Split_index_1_None|].
  unfold Main.buildColumnDefinition.
  destruct (Strings.Contains gormTag "default") eqn:E.
  - unfold Main.getDefault.
    destruct (index (Strings.Split gormTag ":") 1) as [d|] eqn:Ed; cbn [bind].
    + split; [discriminate|]. intros [_ H].
      apply Split_index_1_None in H. congruence.
    + split; [|reflexivity]. intros _. split; [reflexivity|].
      now apply Split_index_1_None.
  - split; [discriminate|]. intros [H _]. discriminate H.
Qed.

Section MainCreate.

Variable ns : NamingStrategy.
Variable modelType : Model.

Lemma Main_getDefault_safe (gormTag : string) :
  noByte ":" gormTag = false -> exists v, Main.getDefault gormTag = Some v.
Proof.
  intros H. destruct (Main.getDefault gormTag) as [v|] eqn:E; [eauto|].
  apply (proj1 (Split_index_1_None gormTag ":")) in E. congruence.
Qed.

Lemma Main_createField_safe (acc : CreateAcc) (field : Field) :
  isGormModel field = true \/ tagIsSafe (FTag field) = true ->
  exists acc', Main.createField ns modelType acc field = Some acc'.
Proof.
  intros H. unfold Main.createField.
  destruct (isGormModel field) eqn:G; [eauto|].
  destruct H as [H|H]; [discriminate|].
  unfold tagIsSafe in H.
  unfold Main.buildColumnDefinition, Main.getForeignKey, Main.getComment.
  destruct (noByte ":" (FTag field)) eqn:N; cbn [negb orb] in H.
  - apply negb_true_iff in H.
    apply orb_false_iff in H as [H Hc]. apply orb_false_iff in H as [Hd Hf].
    rewrite Hd, Hf, Hc. cbn [bind]. eauto.
  - destruct (Main_getDefault_safe _ N) as [v Hv].
    unfold Main.getDefault in *. rewrite Hv.
    destruct (Strings.Contains (FTag field) "default"),
             (Strings.Contains (FTag field) "foreignKey"),
             (Strings.Contains (FTag field) "comment");
      cbn [bind]; eauto.
Qed.

Lemma forEach_total_on {S A} (body : S -> A -> option S) (P : A -> Prop) :
  (forall s x, P x -> exists s', body s x = Some s') ->
  forall l, Forall P l -> forall s, exists s', forEach body l s = Some s'.
Proof.
  intros Hb l Hl; induction Hl as [|x l Hx Hl IH]; intros s; cbn [forEach];
    [eauto|].
  destruct (Hb s x Hx) as [s' ->]. cbn [bind]. apply IH.
Qed.

(** Every field adds a column at least. *)
Lemma Main_createField_columns (acc acc' : CreateAcc) (field : Field) :
  Main.createField ns modelType acc field = Some acc' ->
  length (columns acc) < length (columns acc').
Proof.
  unfold Main.createField.
  destruct (isGormModel field).
  - intros [= <-]. cbn [columns]. rewrite length_app. cbn. lia.
  - destruct (Main.buildColumnDefinition _ _ _); [|discriminate].
    destruct (Main.getForeignKey _ _); [|discriminate].
    destruct (Main.getComment _); [|discriminate].
    cbn [bind]. intros [= <-]. cbn [columns]. unfold append.
    rewrite length_app. cbn. lia.
Qed.

Lemma Main_create_loop_columns (fields : list Field) (acc acc' : CreateAcc) :
  forEach (Main.createField ns modelType) fields acc = Some acc' ->
  length (columns acc) + length fields <= length (columns acc').
Proof.
  revert acc; induction fields as [|f fields IH]; intros acc; cbn [forEach].
  - intros [= <-]. cbn. lia.
  - destruct (Main.createField ns modelType acc f) as [acc1|] eqn:E;
      [|discriminate].
    cbn [bind]. intros H. apply IH in H.
    apply Main_createField_columns in E. cbn [length]. lia.
Qed.

End MainCreate.

(** X3: [generateCreateTableSQL] of [main.go] returns, without a panic, for
    every model in which the tag of each field (the embedded [gorm.Model]
    apart) has a colon or none of the keywords [default], [foreignKey] and
    [comment]. *)
Theorem Main_create_returns_on_safe_tags (ns : NamingStrategy) (model : Model) :
  forallb (fun f => tagIsSafe (FTag f)) (taggedFields model) = true ->
  exists sql, Main.generateCreateTableSQL ns model = Some sql.
Proof.
  intros H. unfold Main.generateCreateTableSQL.
  assert (Hall : Forall (fun f => isGormModel f = true \/ tagIsSafe (FTag f) = true)
                   (MFields model)).
  { apply Forall_forall. intros f Hf.
    destruct (isGormModel f) eqn:G; [now left|right].
    rewrite forallb_forall in H. apply H.
    unfold taggedFields. apply filter_In. split; [exact Hf|]. now rewrite G. }
  destruct (forEach_total_on (Main.createField ns model) _
              (fun s x => Main_createField_safe ns model s x)
              (MFields model) Hall emptyAcc) as [acc ->].
  cbn [bind]. destruct (appendIf _ _ _); eauto.
Qed.

Lemma Main_create_returns_on_safe_tags_witness :
  exists sql,
    Main.generateCreateTableSQL exampleNaming
      (mkModel "User"
         [ mkField "Model" gormModel "";
           mkField "Name" tString "not null;unique";
           mkField "Email" tString "default:'none'" ]) = Some sql.
Proof.
  apply (Main_create_returns_on_safe_tags exampleNaming
           (mkModel "User"
              [ mkField "Model" gormModel "";
                mkField "Name" tString "not null;unique";
                mkField "Email" tString "default:'none'" ])).
  reflexivity.
Defined.

(** X4: [generateCreateTableSQL] of [main.go] returns the empty string for
    the models without fields and for no other model. *)
Theorem Main_create_empty_iff_no_fields (ns : NamingStrategy) (model : Model) :
  Main.generateCreateTableSQL ns model = Some "" <-> MFields model = [].
Proof.
  split.
  - unfold Main.generateCreateTableSQL.
    destruct (forEach (Main.createField ns model) (MFields model) emptyAcc)
      as [acc|] eqn:E; [|discriminate].
    cbn [bind]. apply Main_create_loop_columns in E. cbn [columns emptyAcc length] in E.
    destruct (MFields model) as [|f fields]; [reflexivity|].
    cbn [length] in E. unfold appendIf, append.
    destruct (0 <? length (primaryKeys acc))%nat.
    + destruct (columns acc); cbn; discriminate.
    + destruct (columns acc); [cbn in E; lia | discriminate].
  - destruct model as [name fields]. cbn [MFields]. intros ->. reflexivity.
Qed.

(** X5: when the colon of [default:] (of [comment:]) is the only colon of
    the tag, [Migrator.getDefault] ([Migrator.getComment]) returns all the text
    behind it, up to the end of the tag. *)
Theorem Mig_value_of_single_colon_tag (pre v : string) :
  noByte ":" pre = true -> noByte ":" v = true ->
  Mig.getDefault (pre ++ "default:" ++ v) = Some v /\
  Mig.getComment (pre ++ "comment:" ++ v) = Some v.
Proof.
  intros Hpre Hv. unfold Mig.getDefault, Mig.getComment.
  rewrite !Contains_app. split.
  - replace (pre ++ "default:" ++ v) with ((pre ++ "default") ++ String ":" v)
      by (now rewrite string_app_assoc).
    rewrite Split_app_sep by (rewrite noByte_app, Hpre; reflexivity).
    now rewrite (Split_noByte _ _ Hv).
  - replace (pre ++ "comment:" ++ v) with ((pre ++ "comment") ++ String ":" v)
      by (now rewrite string_app_assoc).
    rewrite Split_app_sep by (rewrite noByte_app, Hpre; reflexivity).
    now rewrite (Split_noByte _ _ Hv).
Qed.

Lemma Mig_value_of_single_colon_tag_witness :
  Mig.getDefault ("not null;" ++ "default:" ++ "0;index") = Some "0;index" /\
  Mig.getComment ("not null;" ++ "comment:" ++ "0;index") = Some "0;index".
Proof.
  apply (Mig_value_of_single_colon_tag "not null;" "0;index"); reflexivity.
Defined.

(** X6: [Migrator.getForeignKey] finds the [foreignKey:<table>] token in any
    position of the tag: behind parts of which none starts with
    [foreignKey:], and whether or not further parts follow, it yields
    [FOREIGN KEY (<column>) REFERENCES <table>(id)]. *)
Theorem Mig_getForeignKey_any_position (pre table rest columnName : string) :
  noForeignKeyPart pre = true ->
  noByte ":" table = true -> noByte ";" table = true ->
  Mig.getForeignKey (pre ++ ";foreignKey:" ++ table ++ ";" ++ rest) columnName
  = Some ("FOREIGN KEY (" ++ columnName ++ ") REFERENCES " ++ table ++ "(id)") /\
  Mig.getForeignKey (pre ++ ";foreignKey:" ++ table) columnName
  = Some ("FOREIGN KEY (" ++ columnName ++ ") REFERENCES " ++ table ++ "(id)").
Proof.
  intros Hpre Hc Hs. unfold Mig.getForeignKey, noForeignKeyPart in *. split.
  - replace (pre ++ ";foreignKey:" ++ table ++ ";" ++ rest)
      with ((pre ++ ";") ++ "foreignKey" ++ (":" ++ table ++ ";" ++ rest)) at 1
      by (now rewrite string_app_assoc).
    rewrite Contains_app.
    change (pre ++ ";foreignKey:" ++ table ++ ";" ++ rest)
      with (pre ++ String ";" (("foreignKey:" ++ table) ++ String ";" rest)).
    rewrite Split_app, foreignKeyOfParts_skip by exact Hpre.
    rewrite Split_app_sep by exact Hs.
    now apply Mig_getForeignKey_first_part.
  - replace (pre ++ ";foreignKey:" ++ table)
      with ((pre ++ ";") ++ "foreignKey" ++ (":" ++ table)) at 1
      by (now rewrite string_app_assoc).
    rewrite Contains_app.
    change (pre ++ ";foreignKey:" ++ table)
      with (pre ++ String ";" ("foreignKey:" ++ table)).
    rewrite Split_app, foreignKeyOfParts_skip by exact Hpre.
    rewrite Split_noByte by exact Hs.
    change [("foreignKey:" ++ table)]
      with (("foreignKey:" ++ table) :: tl (Strings.Split "" ";")).
    cbn [Mig.foreignKeyOfParts]. rewrite HasPrefix_app.
    change ("foreignKey:" ++ table) with ("foreignKey" ++ String ":" table).
    rewrite Split_app_sep by reflexivity.
    rewrite (Split_noByte _ _ Hc). reflexivity.
Qed.

Lemma Mig_getForeignKey_any_position_witness :
  Mig.getForeignKey
    ("not null;index" ++ ";foreignKey:" ++ "Orders" ++ ";" ++ "comment:the order")
    "order_id"
  = Some ("FOREIGN KEY (" ++ "order_id" ++ ") REFERENCES " ++ "Orders" ++ "(id)") /\
  Mig.getForeignKey ("not null;index" ++ ";foreignKey:" ++ "Orders") "order_id"
  = Some ("FOREIGN KEY (" ++ "order_id" ++ ") REFERENCES " ++ "Orders" ++ "(id)").
Proof.
  apply (Mig_getForeignKey_any_position "not null;index" "Orders"
           "comment:the order" "order_id"); reflexivity.
Defined.

(** X7: when no part of the tag starts with [foreignKey:] -
    the keyword is absent, has no colon, or follows white space behind the
    semicolon - [Migrator.getForeignKey] returns the empty string: the column
    gets no foreign key, and nothing is reported. *)
Theorem Mig_getForeignKey_none (gormTag columnName : string) :
  noForeignKeyPart gormTag = true ->
  Mig.getForeignKey gormTag columnName = Some "".
Proof.
  intros H. unfold Mig.getForeignKey, noForeignKeyPart in *.
  destruct (Strings.Contains gormTag "foreignKey"); [|reflexivity].
  rewrite <- (app_nil_r (Strings.Split gormTag ";")).
  now rewrite foreignKeyOfParts_skip.
Qed.

Lemma Mig_getForeignKey_none_witness :
  Mig.getForeignKey "index; foreignKey:Orders" "order_id" = Some "".
Proof.
  apply (Mig_getForeignKey_none "index; foreignKey:Orders" "order_id").
  reflexivity.
Defined.

(* ================================================================== *)
(** * Further properties: the diff engine *)
(* ================================================================== *)

Section DiffFacts.

Variable getPostgresType : GoType -> string.
Variable ns : NamingStrategy.
Variable db : DB.

Let step := Engine.compareField getPostgresType ns db.

(** The loop body appends to what it is given. *)
Lemma compareField_acc tableName d l f :
  step tableName (d, l) f
  = ((d ++ fst (step tableName ([], []) f))%list,
     (l ++ snd (step tableName ([], []) f))%list).
Proof.
  unfold step, Engine.compareField.
  destruct (isGormModel f); [now rewrite !app_nil_r|].
  destruct (columnExists db tableName _) as [[|]|err]; cbn [negb fst snd];
    unfold append; cbn [app]; rewrite ?app_nil_r; try reflexivity.
  destruct (columnDataType db tableName _) as [ty|err]; cbn [fst snd];
    rewrite ?app_nil_r; try reflexivity.
  destruct (negb _); cbn [fst snd app]; now rewrite ?app_nil_r.
Qed.

Lemma compare_fold_acc tableName fields d l :
  fold_left (step tableName) fields (d, l)
  = ((d ++ fst (fold_left (step tableName) fields ([], [])))%list,
     (l ++ snd (fold_left (step tableName) fields ([], [])))%list).
Proof.
  revert d l; induction fields as [|f fields IH]; intros d l; cbn [fold_left].
  - cbn. now rewrite !app_nil_r.
  - rewrite (compareField_acc tableName d l f).
    destruct (step tableName ([], []) f) as [dd dl]. cbn [fst snd].
    rewrite (IH (d ++ dd)%list (l ++ dl)%list), (IH dd dl). cbn [fst snd].
    now rewrite !app_assoc.
Qed.

(** A field adds one difference or one logged line, or nothing. *)
Lemma compareField_one tableName f :
  length (fst (step tableName ([], []) f))
  + length (snd (step tableName ([], []) f))
  <= (if isGormModel f then 0 else 1).
Proof.
  unfold step, Engine.compareField.
  destruct (isGormModel f); [cbn; lia|].
  destruct (columnExists db tableName _) as [[|]|err]; cbn; try lia.
  destruct (columnDataType db tableName _) as [ty|err]; cbn; try lia.
  destruct (Strings.EqualFold _ _); cbn; lia.
Qed.

Lemma compareField_match tableName f :
  isGormModel f = true \/ fieldMatches getPostgresType ns db tableName f = true ->
  step tableName ([], []) f = ([], []).
Proof.
  unfold step, Engine.compareField, fieldMatches.
  destruct (isGormModel f); [reflexivity|].
  intros [H|H]; [discriminate|].
  destruct (columnExists db tableName _) as [[|]|err]; try discriminate.
  destruct (columnDataType db tableName _) as [ty|err]; try discriminate.
  cbn [negb]. now rewrite H.
Qed.

End DiffFacts.

(** X8: [compareModelToTable] treats the fields one after the other and
    independently: the differences (and the logged lines) of a model with the
    fields [fields1 ++ fields2] are those of [fields1] followed by those of
    [fields2], so the differences come in the order of declaration. *)
Theorem compareModelToTable_app (getPostgresType : GoType -> string)
  (ns : NamingStrategy) (db : DB) (name : string) (fields1 fields2 : list Field) :
  Engine.compareModelToTable getPostgresType ns db (mkModel name (fields1 ++ fields2))
  = ((fst (Engine.compareModelToTable getPostgresType ns db (mkModel name fields1))
      ++ fst (Engine.compareModelToTable getPostgresType ns db (mkModel name fields2)))%list,
     (snd (Engine.compareModelToTable getPostgresType ns db (mkModel name fields1))
      ++ snd (Engine.compareModelToTable getPostgresType ns db (mkModel name fields2)))%list).
Proof.
  unfold Engine.compareModelToTable. cbn [MName MFields].
  rewrite fold_left_app.
  rewrite (surjective_pairing
             (fold_left (Engine.compareField getPostgresType ns db
                           (TableName ns name)) fields1 ([], []))) at 1.
  apply compare_fold_acc.
Qed.

(** X9: every compared field gives one difference, or one logged query
    error, or nothing: differences and logged lines together are at most as
    many as the model has columns to compare. *)
Theorem compareModelToTable_at_most_one_per_field
  (getPostgresType : GoType -> string) (ns : NamingStrategy) (db : DB)
  (model : Model) :
  length (fst (Engine.compareModelToTable getPostgresType ns db model))
  + length (snd (Engine.compareModelToTable getPostgresType ns db model))
  <= length (modelColumns ns model).
Proof.
  unfold Engine.compareModelToTable, modelColumns. rewrite length_map.
  induction (MFields model) as [|f fields IH] using rev_ind; [cbn; lia|].
  rewrite fold_left_app. cbn [fold_left].
  rewrite (surjective_pairing (fold_left _ fields _)) at 1 2.
  rewrite compareField_acc. cbn [fst snd].
  rewrite !length_app, filter_app, length_app. cbn [filter].
  pose proof (compareField_one getPostgresType ns db
                (TableName ns (MName model)) f) as H1.
  destruct (isGormModel f); cbn [negb length] in *; lia.
Qed.

(** X10: a table that has every column of the model with the mapped type,
    up to the case of the letters, gives no difference and no logged line. *)
Theorem compareModelToTable_matching (getPostgresType : GoType -> string)
  (ns : NamingStrategy) (db : DB) (model : Model) :
  forallb (fieldMatches getPostgresType ns db (TableName ns (MName model)))
    (taggedFields model) = true ->
  Engine.compareModelToTable getPostgresType ns db model = ([], []).
Proof.
  intros H. unfold Engine.compareModelToTable, taggedFields in *.
  induction (MFields model) as [|f fields IH]; [reflexivity|].
  cbn [fold_left]. cbn [filter] in H.
  rewrite compareField_match.
  - apply IH. destruct (isGormModel f); cbn [negb] in H; [exact H|].
    cbn [forallb] in H. now apply andb_true_iff in H as [_ H].
  - destruct (isGormModel f); cbn [negb] in H; [now left|right].
    cbn [forallb] in H. now apply andb_true_iff in H as [H _].
Qed.

Lemma compareModelToTable_matching_witness :
  Engine.compareModelToTable Mig.getPostgresType exampleNaming
    (catalogue [("users", (baseColumns ++ [("name", "text");
                                           ("email", "Text")])%list)])
    Main.User = ([], []).
Proof.
  apply (compareModelToTable_matching Mig.getPostgresType exampleNaming
           (catalogue [("users", (baseColumns ++ [("name", "text");
                                                  ("email", "Text")])%list)])
           Main.User).
  reflexivity.
Defined.

(** X11: on the differences of a model whose column names are valid,
    [generateRollbackAlterTableSQL] does not panic: it returns the empty
    string when no column is added, and a statement otherwise. *)
Theorem rollback_of_compared_model (getPostgresType : GoType -> string)
  (ns : NamingStrategy) (db : DB) (model : Model) (tableName : string) :
  forallb validName (modelColumns ns model) = true ->
  exists ds,
    fst (Engine.compareModelToTable getPostgresType ns db model) = map render ds /\
    Engine.generateRollbackAlterTableSQL tableName
      (fst (Engine.compareModelToTable getPostgresType ns db model))
    = Some (match dropClauses ds with
            | [] => ""
            | clauses =>
                "ALTER TABLE " ++ tableName ++ Strings.nl
                  ++ Strings.Join clauses ("," ++ Strings.nl) ++ ";"
            end).
Proof.
  intros H.
  destruct (compareModelToTable_wellNamed getPostgresType ns db model H)
    as (ds & Hds & Hnamed).
  exists ds. split; [exact Hds|]. rewrite Hds.
  unfold Engine.generateRollbackAlterTableSQL.
  rewrite (rollback_loop ds [] Hnamed). cbn [bind app].
  destruct (dropClauses ds); reflexivity.
Qed.

Lemma rollback_of_compared_model_witness :
  exists ds,
    fst (Engine.compareModelToTable Mig.getPostgresType exampleNaming
           dbMissingEmail Main.User) = map render ds /\
    Engine.generateRollbackAlterTableSQL "users"
      (fst (Engine.compareModelToTable Mig.getPostgresType exampleNaming
              dbMissingEmail Main.User))
    = Some (match dropClauses ds with
            | [] => ""
            | clauses =>
                "ALTER TABLE " ++ "users" ++ Strings.nl
                  ++ Strings.Join clauses ("," ++ Strings.nl) ++ ";"
            end).
Proof.
  apply (rollback_of_compared_model Mig.getPostgresType exampleNaming
           dbMissingEmail Main.User "users").
  reflexivity.
Defined.

(* ================================================================== *)
(** * Further properties: the run *)
(* ================================================================== *)

Section RunFacts.

Variable P : Event -> Prop.

Lemma emits_ret {A} (a : A) : emits P (ret a).
Proof. intros w. exists []. cbn. now rewrite app_nil_r. Qed.

Lemma emits_bind {A B} (m : M A) (k : A -> M B) :
  emits P m -> (forall a, emits P (k a)) -> emits P (bindM m k).
Proof.
  intros Hm Hk w. unfold bindM.
  destruct (Hm w) as (es & He & HP).
  destruct (m w) as [w1 [a|c|]] eqn:E; cbn [fst] in *.
  - destruct (Hk a w1) as (es' & He' & HP').
    exists (es ++ es')%list. rewrite He', He, app_assoc.
    split; [reflexivity|]. now apply Forall_app.
  - now exists es.
  - now exists es.
Qed.

Lemma emits_emit (e : Event) : P e -> emits P (emit e).
Proof. intros He w. exists [e]. cbn. split; [reflexivity|]. now constructor. Qed.

Lemma emits_logFatalf (msg : string) : P (Log msg) -> emits P (logFatalf msg).
Proof. intros He w. exists [Log msg]. cbn. split; [reflexivity|]. now constructor. Qed.

Lemma emits_now (os : OS) : emits P (now os).
Proof. intros w. exists []. cbn. now rewrite app_nil_r. Qed.

Lemma emits_orPanic {A} (r : option A) : emits P (orPanic r).
Proof. intros w. exists []. destruct r; cbn; now rewrite app_nil_r. Qed.

Lemma emits_when (c : bool) (m : M unit) : emits P m -> emits P (when c m).
Proof. destruct c; [auto|]. intros _. apply emits_ret. Qed.

Lemma emits_logAll (msgs : list string) :
  (forall msg, P (Log msg)) -> emits P (logAll msgs).
Proof.
  intros HL. induction msgs as [|m msgs IH]; cbn [logAll].
  - apply emits_ret.
  - apply emits_bind; [apply emits_emit, HL | intros _; exact IH].
Qed.

Lemma emits_forM {A} (body : A -> M unit) (l : list A) :
  (forall x, emits P (body x)) -> emits P (forM body l).
Proof.
  intros Hb. induction l as [|x l IH]; cbn [forM].
  - apply emits_ret.
  - apply emits_bind; [apply Hb | intros _; exact IH].
Qed.

End RunFacts.

Section RunInvariant.

Variable getPostgresType : GoType -> string.
Variable generateCreateTableSQL : NamingStrategy -> Model -> option string.
Variable ns : NamingStrategy.
Variable db : DB.
Variable os : OS.
Variable outputDir : string.
Variable debug : bool.

Let Q := isMigrationWrite os outputDir.

Lemma createMigrationFile_emits (name content : string) (isUp : bool) :
  emits Q (Engine.createMigrationFile os outputDir debug name content isUp).
Proof.
  unfold Engine.createMigrationFile.
  destruct (String.eqb_spec content "") as [->|Hne].
  - apply emits_emit. exact I.
  - apply emits_bind; [apply emits_now|]. intros timestamp.
    destruct (mkdirAll os outputDir); [apply emits_logFatalf; exact I|].
    apply emits_bind; [apply emits_emit; exact I|]. intros _.
    destruct (writeFile os _ content); [apply emits_logFatalf; exact I|].
    apply emits_bind.
    + apply emits_emit. split; [exact Hne|].
      exists (timestamp ++ "_" ++ name), (if negb isUp then "down" else "up").
      split; [now rewrite !string_app_assoc|].
      destruct isUp; auto.
    + intros _. apply emits_bind; [apply emits_emit; exact I|]. intros _.
      apply emits_when, emits_emit. exact I.
Qed.

Lemma migrateModel_emits (model : Model) :
  emits Q (Engine.migrateModel getPostgresType generateCreateTableSQL ns db
             os outputDir debug model).
Proof.
  unfold Engine.migrateModel.
  apply emits_bind; [apply emits_when, emits_emit; exact I|]. intros _.
  destruct (tableExists db _) as [[|]|err]; cbn [negb].
  - destruct (Engine.compareModelToTable getPostgresType ns db model)
      as [differences logged].
    apply emits_bind; [apply emits_logAll; intros; exact I|]. intros _.
    destruct (0 <? length differences)%nat.
    + apply emits_bind; [apply emits_orPanic|]. intros downSQL.
      destruct (_ || _); [apply emits_emit; exact I|].
      apply emits_bind; [apply createMigrationFile_emits|]. intros _.
      apply createMigrationFile_emits.
    + apply emits_when, emits_emit. exact I.
  - apply emits_bind; [apply emits_orPanic|]. intros upSQL.
    destruct (String.eqb upSQL ""); [apply emits_emit; exact I|].
    apply emits_bind; [apply createMigrationFile_emits|]. intros _.
    apply createMigrationFile_emits.
  - apply emits_emit. exact I.
Qed.

End RunInvariant.

(** X12: whatever the models, the database and the operating system do, and
    however the run ends, a run of [generateMigrations] /
    [GenerateMigrations] only adds to the trace, and every file it writes is a
    non-empty text in a file [<stem>.up.sql] or [<stem>.down.sql] of the
    output directory. *)
Theorem run_writes_only_migration_files
  (getPostgresType : GoType -> string)
  (generateCreateTableSQL : NamingStrategy -> Model -> option string)
  (ns : NamingStrategy) (db : DB) (os : OS) (outputDir : string) (debug : bool)
  (models : list Model) (w : World) :
  exists es,
    trace (fst (Engine.generateMigrations getPostgresType
                  generateCreateTableSQL ns db os outputDir debug models w))
    = (trace w ++ es)%list /\
    Forall (isMigrationWrite os outputDir) es.
Proof.
  apply (emits_forM (isMigrationWrite os outputDir)
           (Engine.migrateModel getPostgresType generateCreateTableSQL ns db
              os outputDir debug) models).
  intros model. apply migrateModel_emits.
Qed.

Section RunSteps.

Variable getPostgresType : GoType -> string.
Variable generateCreateTableSQL : NamingStrategy -> Model -> option string.
Variable ns : NamingStrategy.
Variable db : DB.
Variable os : OS.
Variable outputDir : string.
Variable debug : bool.

Lemma when_debug_run (msg : string) (t : list Event) (c : nat) :
  when debug (logPrintf msg) (mkWorld t c)
  = (mkWorld (t ++ (if debug then [Log msg] else []))%list c, Normal tt).
Proof. destruct debug; cbn; unfold append; now rewrite ?app_nil_r. Qed.

Lemma createMigrationFile_run (name content : string) (isUp : bool)
  (t : list Event) (c : nat) :
  osWorks os -> content <> "" ->
  exists t',
    Engine.createMigrationFile os outputDir debug name content isUp (mkWorld t c)
    = (mkWorld t' (S c), Normal tt) /\
    filesWritten t'
    = (filesWritten t ++ [WriteFile (migrationPath os outputDir c name isUp) content])%list.
Proof.
  intros [Hmk Hwr] Hne. unfold Engine.createMigrationFile.
  destruct (String.eqb_spec content "") as [->|_]; [congruence|].
  unfold bindM, now. cbn [trace clock]. rewrite Hmk.
  unfold emit at 1. cbn [trace clock]. rewrite Hwr.
  unfold emit, when, append, ret. cbn [trace clock].
  destruct debug; cbn [trace clock]; eexists; (split; [reflexivity|]);
    rewrite !filesWritten_app; cbn; now rewrite ?app_nil_r.
Qed.


End RunSteps.

(** X13: a model whose table-existence query fails is logged and skipped:
    the run goes on with the remaining models, having written nothing and read
    no clock. *)
Theorem table_query_failure_is_skipped
  (getPostgresType : GoType -> string)
  (generateCreateTableSQL : NamingStrategy -> Model -> option string)
  (ns : NamingStrategy) (db : DB) (os : OS) (outputDir : string) (debug : bool)
  (model : Model) (rest : list Model) (err : string) (w : World) :
  tableExists db (TableName ns (MName model)) = QueryError err ->
  Engine.generateMigrations getPostgresType generateCreateTableSQL ns db os
    outputDir debug (model :: rest) w
  = Engine.generateMigrations getPostgresType generateCreateTableSQL ns db os
      outputDir debug rest
      (mkWorld
         (trace w
          ++ (if debug then [Log ("Processing model: " ++ MName model)] else [])
          ++ [Log ("Error checking if table exists: " ++ err)])%list
         (clock w)).
Proof.
  intros H. destruct w as [t c].
  unfold Engine.generateMigrations. cbn [forM].
  unfold bindM at 1. unfold Engine.migrateModel. rewrite H.
  unfold bindM at 1. rewrite when_debug_run.
  unfold logPrintf, emit, append. cbn [trace clock].
  now rewrite <- app_assoc.
Qed.

Lemma table_query_failure_is_skipped_witness :
  Engine.generateMigrations Mig.getPostgresType Mig.generateCreateTableSQL
    exampleNaming
    (mkDB (fun _ => QueryError "connection refused")
       (fun _ _ => Row false) (fun _ _ => QueryError "no rows"))
    exampleOS "migrations" false (Main.User :: []) emptyWorld
  = Engine.generateMigrations Mig.getPostgresType Mig.generateCreateTableSQL
      exampleNaming
      (mkDB (fun _ => QueryError "connection refused")
         (fun _ _ => Row false) (fun _ _ => QueryError "no rows"))
      exampleOS "migrations" false []
      (mkWorld
         (trace emptyWorld
          ++ (if false then [Log ("Processing model: " ++ MName Main.User)] else [])
          ++ [Log ("Error checking if table exists: " ++ "connection refused")])%list
         (clock emptyWorld)).
Proof.
  apply (table_query_failure_is_skipped Mig.getPostgresType
           Mig.generateCreateTableSQL exampleNaming
           (mkDB (fun _ => QueryError "connection refused")
              (fun _ _ => Row false) (fun _ _ => QueryError "no rows"))
           exampleOS "migrations" false Main.User [] "connection refused"
           emptyWorld).
  reflexivity.
Defined.

Section RunPairs.

Variable getPostgresType : GoType -> string.
Variable generateCreateTableSQL : NamingStrategy -> Model -> option string.
Variable ns : NamingStrategy.
Variable db : DB.
Variable os : OS.
Variable outputDir : string.
Variable debug : bool.

(** Two non-empty texts are written one after the other. *)
Lemma createMigrationFile_pair (upName upSQL downName downSQL : string)
  (t : list Event) (c : nat) :
  osWorks os -> upSQL <> "" -> downSQL <> "" ->
  exists t',
    (Engine.createMigrationFile os outputDir debug upName upSQL true >>
     Engine.createMigrationFile os outputDir debug downName downSQL false)
      (mkWorld t c)
    = (mkWorld t' (S (S c)), Normal tt) /\
    filesWritten t'
    = (filesWritten t
       ++ [WriteFile (migrationPath os outputDir c upName true) upSQL;
           WriteFile (migrationPath os outputDir (S c) downName false) downSQL])%list.
Proof.
  intros Hos Hup Hdown. unfold bindM.
  destruct (createMigrationFile_run os outputDir debug upName upSQL true t c
              Hos Hup) as (t1 & -> & H1).
  destruct (createMigrationFile_run os outputDir debug downName downSQL false
              t1 (S c) Hos Hdown) as (t2 & -> & H2).
  exists t2. split; [reflexivity|].
  rewrite H2, H1, <- app_assoc. reflexivity.
Qed.

End RunPairs.

(** X14: when the table exists, the differences of the model are over valid
    column names and one of them adds a column, and the operating system
    works, the loop body writes two files and no more: the alter text in
    [<time>_alter_<table>_table.up.sql], then the rollback text, read at
    the next tick of the clock, in [<time>_rollback_<table>_table.down.sql]. *)
Theorem alter_pair_is_written
  (getPostgresType : GoType -> string)
  (generateCreateTableSQL : NamingStrategy -> Model -> option string)
  (ns : NamingStrategy) (db : DB) (os : OS) (outputDir : string) (debug : bool)
  (model : Model) (ds : list Difference) (logged : list string) (w : World) :
  osWorks os ->
  tableExists db (TableName ns (MName model)) = Row true ->
  Engine.compareModelToTable getPostgresType ns db model = (map render ds, logged) ->
  forallb wellNamed ds = true ->
  existsb isAddColumn ds = true ->
  exists downSQL w',
    Engine.generateRollbackAlterTableSQL (TableName ns (MName model))
      (map render ds) = Some downSQL /\
    Engine.migrateModel getPostgresType generateCreateTableSQL ns db os
      outputDir debug model w = (w', Normal tt) /\
    clock w' = S (S (clock w)) /\
    filesWritten (trace w')
    = (filesWritten (trace w)
       ++ [WriteFile
             (migrationPath os outputDir (clock w)
                ("alter_" ++ TableName ns (MName model) ++ "_table") true)
             (Engine.generateAlterTableSQL (TableName ns (MName model))
                (map render ds));
           WriteFile
             (migrationPath os outputDir (S (clock w))
                ("rollback_" ++ TableName ns (MName model) ++ "_table") false)
             downSQL])%list.
Proof.
  intros Hos Hexists Hcmp Hnamed Hadd. destruct w as [t c].
  set (T := TableName ns (MName model)) in *.
  assert (Hds : ds <> []) by (destruct ds; [discriminate | congruence]).
  assert (Hclauses : dropClauses ds <> []).
  { unfold dropClauses. clear -Hadd.
    induction ds as [|D ds IH]; [discriminate|].
    cbn [existsb] in Hadd. cbn [filter].
    destruct (isAddColumn D); [discriminate|]. now apply IH. }
  assert (Hroll : exists downSQL,
            Engine.generateRollbackAlterTableSQL T (map render ds) = Some downSQL
            /\ downSQL <> "").
  { unfold Engine.generateRollbackAlterTableSQL.
    rewrite (rollback_loop ds [] Hnamed). cbn [bind app].
    destruct (dropClauses ds) as [|cl cls]; [congruence|].
    eexists. split; [reflexivity | discriminate]. }
  destruct Hroll as (downSQL & Hroll & Hdown).
  assert (Hup : Engine.generateAlterTableSQL T (map render ds) <> "").
  { apply generateAlterTableSQL_nonempty. destruct ds; [congruence | discriminate]. }
  assert (Hlen : (0 <? length (map render ds))%nat = true).
  { destruct ds; [congruence | reflexivity]. }
  destruct (createMigrationFile_pair os outputDir debug
              ("alter_" ++ T ++ "_table")
              (Engine.generateAlterTableSQL T (map render ds))
              ("rollback_" ++ T ++ "_table") downSQL
              ((t ++ (if debug
                      then [Log ("Processing model: " ++ MName model)]
                      else [])) ++ map Log logged)%list c Hos Hup Hdown)
    as (t' & Hrun & Hfiles).
  exists downSQL, (mkWorld t' (S (S c))).
  split; [exact Hroll|]. split; [|split; [reflexivity|]].
  - unfold Engine.migrateModel. fold T. rewrite Hexists, Hcmp. cbn [negb].
    unfold bindM at 1. rewrite when_debug_run.
    unfold bindM at 1. rewrite logAll_run. rewrite Hlen.
    unfold bindM at 1. rewrite Hroll. cbn [orPanic].
    destruct (String.eqb_spec (Engine.generateAlterTableSQL T (map render ds)) "")
      as [E|_]; [congruence|].
    destruct (String.eqb_spec downSQL "") as [E|_]; [congruence|].
    cbn [orb]. exact Hrun.
  - cbn [trace]. rewrite Hfiles, !filesWritten_app, filesWritten_logs.
    destruct debug; cbn; now rewrite ?app_nil_r.
Qed.

Lemma alter_pair_is_written_witness :
  exists downSQL w',
    Engine.generateRollbackAlterTableSQL (TableName exampleNaming (MName Main.User))
      (map render [AddColumn "email" "TEXT"]) = Some downSQL /\
    Engine.migrateModel Mig.getPostgresType Mig.generateCreateTableSQL
      exampleNaming dbMissingEmail exampleOS "migrations" false Main.User
      emptyWorld = (w', Normal tt) /\
    clock w' = S (S (clock emptyWorld)) /\
    filesWritten (trace w')
    = (filesWritten (trace emptyWorld)
       ++ [WriteFile
             (migrationPath exampleOS "migrations" (clock emptyWorld)
                ("alter_" ++ TableName exampleNaming (MName Main.User) ++ "_table")
                true)
             (Engine.generateAlterTableSQL
                (TableName exampleNaming (MName Main.User))
                (map render [AddColumn "email" "TEXT"]));
           WriteFile
             (migrationPath exampleOS "migrations" (S (clock emptyWorld))
                ("rollback_" ++ TableName exampleNaming (MName Main.User) ++ "_table")
                false)
             downSQL])%list.
Proof.
  apply (alter_pair_is_written Mig.getPostgresType Mig.generateCreateTableSQL
           exampleNaming dbMissingEmail exampleOS "migrations" false Main.User
           [AddColumn "email" "TEXT"] [] emptyWorld).
  - split; reflexivity.
  - reflexivity.
  - reflexivity.
  - reflexivity.
  - reflexivity.
Defined.

(** X15: for a model whose table is missing, the loop body of
    [Migrator.GenerateMigrations] on a working operating system always writes
    the pair: the [CREATE TABLE] text in [<time>_create_<table>_table.up.sql]
    and [DROP TABLE IF EXISTS <table>;] in
    [<time>_drop_<table>_table.down.sql]; the branch that logs "Failed to
    generate CREATE TABLE SQL" is never taken. *)
Theorem Mig_missing_table_writes_pair (m : Mig.Migrator) (os : OS)
  (model : Model) (w : World) :
  osWorks os ->
  tableExists (Mig.sqlDB m) (TableName (Mig.naming m) (MName model)) = Row false ->
  exists upSQL w',
    Mig.generateCreateTableSQL (Mig.naming m) model = Some upSQL /\
    Mig.migrateModel m os model w = (w', Normal tt) /\
    clock w' = S (S (clock w)) /\
    filesWritten (trace w')
    = (filesWritten (trace w)
       ++ [WriteFile
             (migrationPath os (Mig.OutputDir (Mig.config m)) (clock w)
                ("create_" ++ TableName (Mig.naming m) (MName model) ++ "_table")
                true)
             upSQL;
           WriteFile
             (migrationPath os (Mig.OutputDir (Mig.config m)) (S (clock w))
                ("drop_" ++ TableName (Mig.naming m) (MName model) ++ "_table")
                false)
             ("DROP TABLE IF EXISTS "
                ++ TableName (Mig.naming m) (MName model) ++ ";")])%list.
Proof.
  intros Hos Hmissing. destruct w as [t c].
  set (T := TableName (Mig.naming m) (MName model)) in *.
  destruct (Mig_generateCreateTableSQL_prefix (Mig.naming m) model)
    as [rest Hcreate]. fold T in Hcreate.
  set (upSQL := "CREATE TABLE " ++ T ++ " (" ++ Strings.nl ++ rest) in *.
  assert (Hup : upSQL <> "") by discriminate.
  assert (Hdown : "DROP TABLE IF EXISTS " ++ T ++ ";" <> "") by discriminate.
  destruct (createMigrationFile_pair os (Mig.OutputDir (Mig.config m))
              (Mig.Debug (Mig.config m))
              ("create_" ++ T ++ "_table") upSQL
              ("drop_" ++ T ++ "_table") ("DROP TABLE IF EXISTS " ++ T ++ ";")
              (t ++ (if Mig.Debug (Mig.config m)
                     then [Log ("Processing model: " ++ MName model)]
                     else []))%list c Hos Hup Hdown)
    as (t' & Hrun & Hfiles).
  exists upSQL, (mkWorld t' (S (S c))).
  split; [exact Hcreate|]. split; [|split; [reflexivity|]].
  - unfold Mig.migrateModel, Engine.migrateModel. fold T.
    rewrite Hmissing, Hcreate. cbn [negb orPanic].
    unfold bindM at 1. rewrite when_debug_run.
    unfold bindM at 1.
    destruct (String.eqb_spec upSQL "") as [E|_]; [congruence|].
    exact Hrun.
  - cbn [trace]. rewrite Hfiles, filesWritten_app.
    destruct (Mig.Debug (Mig.config m)); cbn; now rewrite ?app_nil_r.
Qed.

Lemma Mig_missing_table_writes_pair_witness :
  exists upSQL w',
    Mig.generateCreateTableSQL exampleNaming Main.User = Some upSQL /\
    Mig.migrateModel
      (Mig.mkMigrator exampleConfig exampleNaming (catalogue []) [Main.User])
      exampleOS Main.User emptyWorld = (w', Normal tt) /\
    clock w' = S (S (clock emptyWorld)) /\
    filesWritten (trace w')
    = (filesWritten (trace emptyWorld)
       ++ [WriteFile
             (migrationPath exampleOS "migrations" (clock emptyWorld)
                ("create_" ++ TableName exampleNaming (MName Main.User) ++ "_table")
                true)
             upSQL;
           WriteFile
             (migrationPath exampleOS "migrations" (S (clock emptyWorld))
                ("drop_" ++ TableName exampleNaming (MName Main.User) ++ "_table")
                false)
             ("DROP TABLE IF EXISTS "
                ++ TableName exampleNaming (MName Main.User) ++ ";")])%list.
Proof.
  apply (Mig_missing_table_writes_pair
           (Mig.mkMigrator exampleConfig exampleNaming (catalogue []) [Main.User])
           exampleOS Main.User emptyWorld).
  - split; reflexivity.
  - reflexivity.
Defined.



(* ================================================================== *)
(** * Further properties: [RegisterModels] and the caller's memory *)
(* ================================================================== *)

Section RegisterFacts.

Import Register.

Lemma length_setArray (h : Heap) (i : nat) (a : list Value) :
  length (setArray h i a) = length h.
Proof.
  revert i; induction h as [|b h IH]; intros i; cbn; [reflexivity|].
  destruct i; cbn; [reflexivity|]. now rewrite IH.
Qed.

Lemma RegisterModels_unfold (grow : nat -> nat -> nat) (h : Heap) (s : Slice) :
  RegisterModels grow (mkPackage false) h s
  = Some (mkPackage false, fst (selfAppend grow h s)).
Proof.
  unfold RegisterModels, Lock, Unlock. cbn [modelLock bind].
  now destruct (selfAppend grow h s).
Qed.

End RegisterFacts.

(** X17: when the slice passed with [RegisterModels(s...)] has room for its
    elements once more, the call allocates nothing and stores the copy in the
    caller's backing array, right behind the slice: [s[:2*len(s)]] then reads
    the elements twice. *)
Theorem RegisterModels_fills_spare_capacity (grow : nat -> nat -> nat)
  (h : Register.Heap) (s : Register.Slice) :
  Register.valid h s = true ->
  2 * Register.len s <= Register.cap s ->
  exists h',
    Register.RegisterModels grow (Register.mkPackage false) h s
    = Some (Register.mkPackage false, h') /\
    length h' = length h /\
    Register.elems h'
      (Register.mkSlice (Register.array s) (Register.offset s)
         (2 * Register.len s) (Register.cap s))
    = (Register.elems h s ++ Register.elems h s)%list.
Proof.
  intros Hv Hcap.
  exists (fst (Register.selfAppend grow h s)).
  split; [apply RegisterModels_unfold|].
  destruct (selfAppend_spec grow h s Hv) as (Hdouble & _ & _).
  pose proof (length_elems h s Hv) as Hlen.
  unfold Register.selfAppend, Register.goAppend in *. rewrite Hlen in *.
  assert (E : (Register.len s + Register.len s <=? Register.cap s)%nat = true)
    by (apply Nat.leb_le; lia).
  rewrite E in *. cbn [fst snd] in *.
  split; [apply length_setArray|].
  replace (2 * Register.len s) with (Register.len s + Register.len s) by lia.
  exact Hdouble.
Qed.

Lemma RegisterModels_fills_spare_capacity_witness :
  exists h',
    Register.RegisterModels doubling (Register.mkPackage false)
      [[userPtr; Register.Nil; Register.Nil]] (Register.mkSlice 0 0 1 3)
    = Some (Register.mkPackage false, h') /\
    length h' = length [[userPtr; Register.Nil; Register.Nil]] /\
    Register.elems h'
      (Register.mkSlice (Register.array (Register.mkSlice 0 0 1 3))
         (Register.offset (Register.mkSlice 0 0 1 3))
         (2 * Register.len (Register.mkSlice 0 0 1 3))
         (Register.cap (Register.mkSlice 0 0 1 3)))
    = (Register.elems [[userPtr; Register.Nil; Register.Nil]]
         (Register.mkSlice 0 0 1 3)
       ++ Register.elems [[userPtr; Register.Nil; Register.Nil]]
            (Register.mkSlice 0 0 1 3))%list.
Proof.
  apply (RegisterModels_fills_spare_capacity doubling
           [[userPtr; Register.Nil; Register.Nil]] (Register.mkSlice 0 0 1 3)).
  - reflexivity.
  - cbn. lia.
Defined.

(** X18: when the capacity of the slice does not hold its elements twice,
    the call allocates one new array for the doubled list and changes no
    array that existed: the heap afterwards is the heap before with the new
    array behind it. *)
Theorem RegisterModels_allocates_when_full (grow : nat -> nat -> nat)
  (h : Register.Heap) (s : Register.Slice) :
  Register.valid h s = true ->
  Register.cap s < 2 * Register.len s ->
  exists fresh,
    Register.RegisterModels grow (Register.mkPackage false) h s
    = Some (Register.mkPackage false, (h ++ [fresh])%list) /\
    firstn (2 * Register.len s) fresh
    = (Register.elems h s ++ Register.elems h s)%list.
Proof.
  intros Hv Hcap. pose proof (length_elems h s Hv) as Hlen.
  rewrite RegisterModels_unfold.
  unfold Register.selfAppend, Register.goAppend. rewrite Hlen.
  assert (E : (Register.len s + Register.len s <=? Register.cap s)%nat = false)
    by (apply Nat.leb_gt; lia).
  rewrite E. cbn [fst]. eexists. split; [reflexivity|].
  rewrite app_assoc, firstn_app, length_app, Hlen.
  replace (2 * Register.len s - (Register.len s + Register.len s)) with 0 by lia.
  cbn [firstn]. rewrite app_nil_r. apply firstn_all2.
  rewrite length_app, Hlen. lia.
Qed.

Lemma RegisterModels_allocates_when_full_witness :
  exists fresh,
    Register.RegisterModels doubling (Register.mkPackage false)
      [[userPtr]] (Register.mkSlice 0 0 1 1)
    = Some (Register.mkPackage false, ([[userPtr]] ++ [fresh])%list) /\
    firstn (2 * Register.len (Register.mkSlice 0 0 1 1)) fresh
    = (Register.elems [[userPtr]] (Register.mkSlice 0 0 1 1)
       ++ Register.elems [[userPtr]] (Register.mkSlice 0 0 1 1))%list.
Proof.
  apply (RegisterModels_allocates_when_full doubling [[userPtr]]
           (Register.mkSlice 0 0 1 1)).
  - reflexivity.
  - cbn. lia.
Defined.

(** X19: a call [RegisterModels(v1, ..., vn)] with the models listed as
    arguments returns with the mutex free and leaves every array of the heap
    as it was: what it allocates - the argument slice and its doubled copy -
    is behind them, and nothing refers to it. *)
Theorem RegisterModels_variadic_call_changes_nothing
  (grow : nat -> nat -> nat) (h : Register.Heap) (args : list Register.Value) :
  exists h',
    Register.callWith grow (Register.mkPackage false) h args
    = Some (Register.mkPackage false, h') /\
    firstn (length h) h' = h.
Proof.
  unfold Register.callWith. destruct args as [|v args].
  - rewrite RegisterModels_unfold. eexists. split; [reflexivity|].
    unfold Register.selfAppend, Register.goAppend. cbn.
    rewrite setArray_beyond by lia. apply firstn_all.
  - rewrite RegisterModels_unfold. eexists. split; [reflexivity|].
    unfold Register.selfAppend, Register.goAppend.
    set (s := Register.mkSlice (length h) 0 (length (v :: args))
                (length (v :: args))).
    assert (Hv : Register.valid (h ++ [v :: args])%list s = true).
    { unfold Register.valid, Register.backing, s. cbn [Register.array
        Register.offset Register.len Register.cap].
      rewrite nth_middle, length_app. cbn [length plus].
      rewrite Nat.leb_refl. cbn [andb].
      replace (length h <? length h + 1)%nat with true
        by (symmetry; apply Nat.ltb_lt; lia).
      reflexivity. }
    rewrite (length_elems _ _ Hv).
    replace (Register.len s + Register.len s <=? Register.cap s)%nat with false
      by (symmetry; apply Nat.leb_gt; unfold s; cbn; lia).
    cbn [fst]. rewrite <- app_assoc, firstn_app, firstn_all, Nat.sub_diag.
    cbn [firstn]. apply app_nil_r.
Qed.

(* ================================================================== *)
(** * Further properties: the entry points *)
(* ================================================================== *)

Section EntryPoints.

Lemma emits_osExit (P : Event -> Prop) (code : nat) : emits P (osExit code).
Proof. intros w. exists []. cbn. now rewrite app_nil_r. Qed.

Lemma AddModel_fold (ms : list Model) (m : Mig.Migrator) :
  fold_left Mig.AddModel ms m
  = Mig.mkMigrator (Mig.config m) (Mig.naming m) (Mig.sqlDB m)
      (Mig.models m ++ ms)%list.
Proof.
  revert m; induction ms as [|x ms IH]; intros m; cbn [fold_left].
  - rewrite app_nil_r. now destruct m.
  - rewrite IH. unfold Mig.AddModel at 1 2 3 4, append.
    cbn [Mig.config Mig.naming Mig.sqlDB Mig.models].
    now rewrite <- app_assoc.
Qed.

End EntryPoints.

(** X20: whatever the flags, the connection and the operating system, and
    however it ends, [main] only adds to the trace, and every file it writes
    is a non-empty text in a file [<stem>.up.sql] or [<stem>.down.sql] of the
    directory given by [-output]. *)
Theorem main_writes_only_migration_files (flags : Main.Flags)
  (gormOpen : string -> QueryResult Connection) (os : OS) (w : World) :
  exists es,
    trace (fst (Main.main flags gormOpen os w)) = (trace w ++ es)%list /\
    Forall (isMigrationWrite os (Main.outputDir flags)) es.
Proof.
  revert w. change (emits (isMigrationWrite os (Main.outputDir flags))
                      (Main.main flags gormOpen os)).
  unfold Main.main.
  destruct (Main.versionFlag flags).
  { apply emits_bind; [apply emits_emit; exact I|]. intros _. apply emits_osExit. }
  destruct (_ || _); [apply emits_logFatalf; exact I|].
  destruct (gormOpen _) as [conn|err]; [|apply emits_logFatalf; exact I].
  destruct (connDB conn) as [sqlDB|err]; [|apply emits_logFatalf; exact I].
  unfold Main.generateMigrations.
  apply emits_forM. intros model. apply migrateModel_emits.
Qed.

(** X21: with [-version], or without a user or a database name, [main]
    ends before it opens a connection: it exits (with status 0 for the
    version, 1 otherwise), its outcome is the same whatever the database, and
    it writes no file. *)
Theorem main_stops_before_connecting (flags : Main.Flags)
  (open1 open2 : string -> QueryResult Connection) (os : OS) (w : World) :
  Main.versionFlag flags = true \/ Main.dbUser flags = "" \/ Main.dbName flags = "" ->
  Main.main flags open1 os w = Main.main flags open2 os w /\
  snd (Main.main flags open1 os w)
  = Exit (if Main.versionFlag flags then 0 else 1) /\
  filesWritten (trace (fst (Main.main flags open1 os w))) = filesWritten (trace w).
Proof.
  intros H. unfold Main.main. destruct (Main.versionFlag flags) eqn:V.
  - repeat split. cbn. unfold append. rewrite filesWritten_app. cbn.
    apply app_nil_r.
  - assert (E : String.eqb (Main.dbUser flags) ""
                || String.eqb (Main.dbName flags) "" = true).
    { destruct H as [H|[H|H]]; [discriminate| |]; rewrite H; cbn;
        [reflexivity | apply orb_true_r]. }
    rewrite E. repeat split. cbn. unfold append. rewrite filesWritten_app. cbn.
    apply app_nil_r.
Qed.

Lemma main_stops_before_connecting_witness :
  Main.main (Main.mkFlags "localhost" 5432%Z "" "" "app" "migrations" false false)
    (fun _ => QueryError "refused")
    exampleOS emptyWorld
  = Main.main (Main.mkFlags "localhost" 5432%Z "" "" "app" "migrations" false false)
      (fun _ => Row (mkConnection exampleNaming (Row dbMissingEmail)))
      exampleOS emptyWorld /\
  snd (Main.main
         (Main.mkFlags "localhost" 5432%Z "" "" "app" "migrations" false false)
         (fun _ => QueryError "refused") exampleOS emptyWorld)
  = Exit (if Main.versionFlag
               (Main.mkFlags "localhost" 5432%Z "" "" "app" "migrations" false false)
          then 0 else 1) /\
  filesWritten
    (trace (fst (Main.main
                   (Main.mkFlags "localhost" 5432%Z "" "" "app" "migrations"
                      false false)
                   (fun _ => QueryError "refused") exampleOS emptyWorld)))
  = filesWritten (trace emptyWorld).
Proof.
  apply (main_stops_before_connecting
           (Main.mkFlags "localhost" 5432%Z "" "" "app" "migrations" false false)
           (fun _ => QueryError "refused")
           (fun _ => Row (mkConnection exampleNaming (Row dbMissingEmail)))
           exampleOS emptyWorld).
  right; left; reflexivity.
Defined.

(** X22: a migrator that [New] returns has no model, and [AddModel] keeps
    the configuration and the connection and appends: after the models [ms]
    have been added one by one, [GenerateMigrations] treats exactly [ms], in
    the order they were added. *)
Theorem Mig_models_run_in_order_added (config : Mig.Config)
  (gormOpen : string -> QueryResult Connection) (m : Mig.Migrator)
  (ms : list Model) (os : OS) :
  Mig.New config gormOpen = Row m ->
  Mig.models (fold_left Mig.AddModel ms m) = ms /\
  Mig.GenerateMigrations (fold_left Mig.AddModel ms m) os
  = Engine.generateMigrations Mig.getPostgresType Mig.generateCreateTableSQL
      (Mig.naming m) (Mig.sqlDB m) os (Mig.OutputDir config) (Mig.Debug config) ms.
Proof.
  intros H. unfold Mig.New in H.
  destruct (gormOpen _) as [conn|err]; [|discriminate].
  destruct (connDB conn) as [sqlDB|err]; [|discriminate].
  injection H as <-. rewrite AddModel_fold. cbn. split; reflexivity.
Qed.

Lemma Mig_models_run_in_order_added_witness :
  Mig.models
    (fold_left Mig.AddModel [Main.User; emptyModel]
       (Mig.mkMigrator exampleConfig exampleNaming dbMissingEmail []))
  = [Main.User; emptyModel] /\
  Mig.GenerateMigrations
    (fold_left Mig.AddModel [Main.User; emptyModel]
       (Mig.mkMigrator exampleConfig exampleNaming dbMissingEmail []))
    exampleOS
  = Engine.generateMigrations Mig.getPostgresType Mig.generateCreateTableSQL
      (Mig.naming (Mig.mkMigrator exampleConfig exampleNaming dbMissingEmail []))
      (Mig.sqlDB (Mig.mkMigrator exampleConfig exampleNaming dbMissingEmail []))
      exampleOS (Mig.OutputDir exampleConfig) (Mig.Debug exampleConfig)
      [Main.User; emptyModel].
Proof.
  apply (Mig_models_run_in_order_added exampleConfig
           (fun _ => Row (mkConnection exampleNaming (Row dbMissingEmail)))
           (Mig.mkMigrator exampleConfig exampleNaming dbMissingEmail [])
           [Main.User; emptyModel] exampleOS).
  reflexivity.
Defined.


